(** * SolumaChat: the window-state and positioning coordinator of [index.js]

    A shallow embedding of the Electron main process of SolumaChat: the
    module-level variables [mainWindow], [companionWindow], [loginWindow] and
    [tray], the persisted [store], and the functions that act on them
    ([createTray], [updateSetting], [toggleWindow], [showWindow],
    [getWindowPosition], [initialize], the [app.whenReady] callback and the
    [ipcMain] handlers).

    Conventions of the embedding.
    - JavaScript runs one callback at a time: every function is a state
      transformer over [World], in the monad [M] below.  A thrown exception
      is the result [Throw]; it keeps the state reached when it was thrown.
    - A variable holding [null] is [None]; a variable holding a reference is
      [Some] of the native object, whose [destroyed] flag the window system
      may set behind the program's back.
    - Calls that are observable from outside the process (windows and trays
      created, menus installed, console output, IPC messages) are appended
      to [trace] in program order.
    - Lengths are integers ([Z]), as Electron's [Rectangle] and [Size] have
      them; the arithmetic of [getWindowPosition] is carried out over exact
      rationals ([Q]) and [Math.round] is "floor of x + 1/2". *)

From Stdlib Require Import ZArith QArith Qround String List Lia Lqa.
From stdpp Require Import base option gmap strings.
Import ListNotations.

Local Open Scope Z_scope.
Local Open Scope string_scope.

(** ** Data model *)

Record Size := { width : Z; height : Z }.

Record Rectangle := { rect_x : Z; rect_y : Z; rect_width : Z; rect_height : Z }.

Module Point.
Record t := { x : Z; y : Z }.
End Point.

Inductive WindowKind := Main | Companion | Login.

(** A native [BrowserWindow].  [show] is the constructor option of the same
    name at creation time only; afterwards [visible] is what [isVisible()]
    answers. *)
Record BrowserWindow := {
  destroyed : bool;
  visible : bool;
  focused : bool;
  bounds : Rectangle;
  url : option string
}.

(** What a click on a tray-menu entry runs. *)
Inductive ClickAction :=
| ClickOpenSolumaChat
| ClickToggleWindow
| ClickUpdateSetting (key value : string).

Record RadioItem := {
  radio_label : string;
  radio_checked : bool;
  radio_click : ClickAction
}.

Inductive MenuItem :=
| Item (label : string) (accelerator : option string) (click : ClickAction)
| Separator
| Submenu (label : string) (submenu : list RadioItem)
| Role (label : string) (role : string).

Definition Menu := list MenuItem.

(** Listeners attached to the tray icon with [tray.on]. *)
Inductive Listener :=
| ListenToggleWindow
| ListenPopUpContextMenu (contextMenu : Menu).

Record Tray := {
  tray_destroyed : bool;
  toolTip : option string;
  defaultContextMenu : option Menu;
  on_click : list Listener;
  on_right_click : list Listener
}.

(** The persisted key-value store ([electron-store]); the three keys the
    program uses, each absent ([None]) or present. *)
Record Store := {
  serverHost : option string;
  computerId : option string;
  settings : option (gmap string string)
}.

Inductive Effect :=
| ConsoleLog (msg : string)
| NewBrowserWindow (kind : WindowKind) (shown : bool)
| LoadURL (kind : WindowKind) (target : string)
| LoadFile (kind : WindowKind) (file : string)
| DockShow
| DockHide
| DockSetIcon
| SetApplicationMenu (host : string)
| NewTray
| TrayDestroy
| TraySetContextMenu
| PopUpContextMenu (contextMenu : Menu)
| RegisterShortcut (accelerator : string) (ret : bool)
| ShowMessageBox (title : string)
| IpcSend (channel : string)
| StoreSet (key : string)
| SetPosition (px py : Z) (animate : bool)
| WindowShow (kind : WindowKind)
| WindowHide (kind : WindowKind)
| WindowFocus (kind : WindowKind)
| ExecuteJavaScript (script : string).

Record World := {
  store : Store;
  mainWindow : option BrowserWindow;
  companionWindow : option BrowserWindow;
  loginWindow : option BrowserWindow;
  tray : option Tray;
  (* the environment: [process.platform], the primary display's work area,
     whether the operating system grants the accelerator *)
  platform : string;
  workAreaSize : Size;
  shortcutFree : bool;
  hotkeyRegistered : bool;
  trace : list Effect
}.

Inductive JsError :=
| TypeErrorNull        (* a property read on [null] *)
| ObjectDestroyed.     (* a method called on a destroyed native object *)

Inductive Result (A : Type) :=
| Ok (a : A) (w : World)
| Throw (e : JsError) (w : World).
Arguments Ok {A} a w.
Arguments Throw {A} e w.

(** ** Field updates *)

Definition set_store (s : Store) (w : World) : World :=
  {| store := s; mainWindow := mainWindow w; companionWindow := companionWindow w;
     loginWindow := loginWindow w; tray := tray w; platform := platform w;
     workAreaSize := workAreaSize w; shortcutFree := shortcutFree w;
     hotkeyRegistered := hotkeyRegistered w; trace := trace w |}.

Definition set_mainWindow (b : option BrowserWindow) (w : World) : World :=
  {| store := store w; mainWindow := b; companionWindow := companionWindow w;
     loginWindow := loginWindow w; tray := tray w; platform := platform w;
     workAreaSize := workAreaSize w; shortcutFree := shortcutFree w;
     hotkeyRegistered := hotkeyRegistered w; trace := trace w |}.

Definition set_companionWindow (b : option BrowserWindow) (w : World) : World :=
  {| store := store w; mainWindow := mainWindow w; companionWindow := b;
     loginWindow := loginWindow w; tray := tray w; platform := platform w;
     workAreaSize := workAreaSize w; shortcutFree := shortcutFree w;
     hotkeyRegistered := hotkeyRegistered w; trace := trace w |}.

Definition set_loginWindow (b : option BrowserWindow) (w : World) : World :=
  {| store := store w; mainWindow := mainWindow w; companionWindow := companionWindow w;
     loginWindow := b; tray := tray w; platform := platform w;
     workAreaSize := workAreaSize w; shortcutFree := shortcutFree w;
     hotkeyRegistered := hotkeyRegistered w; trace := trace w |}.

Definition set_tray (t : option Tray) (w : World) : World :=
  {| store := store w; mainWindow := mainWindow w; companionWindow := companionWindow w;
     loginWindow := loginWindow w; tray := t; platform := platform w;
     workAreaSize := workAreaSize w; shortcutFree := shortcutFree w;
     hotkeyRegistered := hotkeyRegistered w; trace := trace w |}.

Definition set_hotkeyRegistered (r : bool) (w : World) : World :=
  {| store := store w; mainWindow := mainWindow w; companionWindow := companionWindow w;
     loginWindow := loginWindow w; tray := tray w; platform := platform w;
     workAreaSize := workAreaSize w; shortcutFree := shortcutFree w;
     hotkeyRegistered := r; trace := trace w |}.

Definition set_trace (t : list Effect) (w : World) : World :=
  {| store := store w; mainWindow := mainWindow w; companionWindow := companionWindow w;
     loginWindow := loginWindow w; tray := tray w; platform := platform w;
     workAreaSize := workAreaSize w; shortcutFree := shortcutFree w;
     hotkeyRegistered := hotkeyRegistered w; trace := t |}.

(** ** The monad of callbacks *)

Definition M (A : Type) : Type := World -> Result A.

Definition ret {A} (a : A) : M A := fun w => Ok a w.

Definition bind {A B} (m : M A) (k : A -> M B) : M B :=
  fun w => match m w with
           | Ok a w' => k a w'
           | Throw e w' => Throw e w'
           end.

Notation "x <- m ;; k" := (bind m (fun x => k))
  (at level 100, m at next level, right associativity).
Notation "m ;;; k" := (bind m (fun _ => k))
  (at level 100, right associativity).

Definition throw {A} (e : JsError) : M A := fun w => Throw e w.
Definition get : M World := fun w => Ok w w.
Definition modify (f : World -> World) : M unit := fun w => Ok tt (f w).
Definition emit (e : Effect) : M unit :=
  modify (fun w => set_trace (trace w ++ [e])%list w).
Definition when (c : bool) (m : M unit) : M unit := if c then m else ret tt.

(** The state a computation ends in, thrown or not. *)
Definition final {A} (r : Result A) : World :=
  match r with Ok _ w => w | Throw _ w => w end.

Definition returns {A} (r : Result A) : bool :=
  match r with Ok _ _ => true | Throw _ _ => false end.

(** ** JavaScript values *)

(** [a || b] on values that are a string or [undefined]: the empty string
    and [undefined] are falsy. *)
Definition js_or (a b : option string) : option string :=
  match a with
  | Some s => if String.eqb s "" then b else a
  | None => b
  end.

Definition truthy (a : option string) : bool :=
  match a with
  | Some s => negb (String.eqb s "")
  | None => false
  end.

(** [a === s] for a string literal [s]. *)
Definition strict_eq (a : option string) (s : string) : bool :=
  match a with
  | Some s' => String.eqb s' s
  | None => false
  end.

(** [Math.round]: the nearest integer, halves towards plus infinity. *)
Definition Math_round (q : Q) : Z := Qfloor (q + (1 # 2))%Q.

(** [serverHost.startsWith("http") ? serverHost : `https://${serverHost}`] *)
Definition hostUrl (serverHost : string) : string :=
  if String.prefix "http" serverHost then serverHost
  else String.append "https://" serverHost.

(** ** Electron's native objects

    The program reaches a window through the variable of its kind.  Reading
    a property of [null] throws; every method of a destroyed window except
    [isDestroyed] throws.  The methods follow Electron's documentation:
    [show] makes the window visible and gives it focus, [focus] gives it
    focus, [hide] makes it invisible (an invisible window has no focus),
    [setPosition] moves it and keeps its size. *)

Definition variable (k : WindowKind) (w : World) : option BrowserWindow :=
  match k with
  | Main => mainWindow w
  | Companion => companionWindow w
  | Login => loginWindow w
  end.

Definition assign (k : WindowKind) (b : option BrowserWindow) : World -> World :=
  match k with
  | Main => set_mainWindow b
  | Companion => set_companionWindow b
  | Login => set_loginWindow b
  end.

Definition call {A} (k : WindowKind) (f : BrowserWindow -> A * BrowserWindow) : M A :=
  fun w =>
    match variable k w with
    | None => Throw TypeErrorNull w
    | Some b =>
        if destroyed b then Throw ObjectDestroyed w
        else let '(a, b') := f b in Ok a (assign k (Some b') w)
    end.

Definition isDestroyed (k : WindowKind) : M bool :=
  fun w =>
    match variable k w with
    | None => Throw TypeErrorNull w
    | Some b => Ok (destroyed b) w
    end.

Definition isVisible (k : WindowKind) : M bool := call k (fun b => (visible b, b)).
Definition isFocused (k : WindowKind) : M bool := call k (fun b => (focused b, b)).
Definition getBounds (k : WindowKind) : M Rectangle := call k (fun b => (bounds b, b)).

Definition hide (k : WindowKind) : M unit :=
  call k (fun b => (tt, {| destroyed := destroyed b; visible := false; focused := false;
                           bounds := bounds b; url := url b |})) ;;;
  emit (WindowHide k).

(** [win.show()]: shows and gives focus to the window. *)
Definition show (k : WindowKind) : M unit :=
  call k (fun b => (tt, {| destroyed := destroyed b; visible := true; focused := true;
                           bounds := bounds b; url := url b |})) ;;;
  emit (WindowShow k).

Definition focus (k : WindowKind) : M unit :=
  call k (fun b => (tt, {| destroyed := destroyed b; visible := visible b; focused := true;
                           bounds := bounds b; url := url b |})) ;;;
  emit (WindowFocus k).

Definition setPosition (k : WindowKind) (px py : Z) (animate : bool) : M unit :=
  call k (fun b => (tt, {| destroyed := destroyed b; visible := visible b;
                           focused := focused b;
                           bounds := {| rect_x := px; rect_y := py;
                                        rect_width := rect_width (bounds b);
                                        rect_height := rect_height (bounds b) |};
                           url := url b |})) ;;;
  emit (SetPosition px py animate).

Definition loadURL (k : WindowKind) (target : string) : M unit :=
  call k (fun b => (tt, {| destroyed := destroyed b; visible := visible b;
                           focused := focused b; bounds := bounds b;
                           url := Some target |})) ;;;
  emit (LoadURL k target).

Definition loadFile (k : WindowKind) (file : string) : M unit :=
  call k (fun b => (tt, {| destroyed := destroyed b; visible := visible b;
                           focused := focused b; bounds := bounds b;
                           url := Some file |})) ;;;
  emit (LoadFile k file).

Definition executeJavaScript (k : WindowKind) (script : string) : M unit :=
  call k (fun b => (tt, b)) ;;; emit (ExecuteJavaScript script).

(** [new BrowserWindow({width, height, show, ...})], assigned to the variable
    of its kind.  Where Electron first places the window is not modelled:
    the program sets the companion's position itself on every show. *)
Definition newBrowserWindow (k : WindowKind) (w h : Z) (shown : bool) : M unit :=
  modify (assign k (Some {| destroyed := false; visible := shown; focused := shown;
                            bounds := {| rect_x := 0; rect_y := 0;
                                         rect_width := w; rect_height := h |};
                            url := None |})) ;;;
  emit (NewBrowserWindow k shown).

(** [k && !k.isDestroyed()], the liveness test the program uses. *)
Definition alive (k : WindowKind) (w : World) : bool :=
  match variable k w with
  | Some b => negb (destroyed b)
  | None => false
  end.

(** A variable used as a condition: [null] is falsy, any object is truthy. *)
Definition nonNull (k : WindowKind) (w : World) : bool :=
  match variable k w with
  | Some _ => true
  | None => false
  end.

Definition store_set_serverHost (h : string) : M unit :=
  modify (fun w => set_store {| serverHost := Some h; computerId := computerId (store w);
                                settings := settings (store w) |} w) ;;;
  emit (StoreSet "serverHost").

Definition store_set_settings (s : gmap string string) : M unit :=
  modify (fun w => set_store {| serverHost := serverHost (store w);
                                computerId := computerId (store w);
                                settings := Some s |} w) ;;;
  emit (StoreSet "settings").

(** ** The program *)

Definition createLoginWindow : M unit :=
  newBrowserWindow Login 600 800 true ;;;
  emit (ConsoleLog "Loading login page from:") ;;;
  loadFile Login "login.html".

Definition updateDockVisibility : M unit :=
  w <- get ;;
  if String.eqb (platform w) "darwin" then
    match mainWindow w with
    | Some b => if negb (destroyed b) && visible b then emit DockShow else emit DockHide
    | None => emit DockHide
    end
  else ret tt.

(** [buildMenu(serverHost)]: the application menu is a static template
    closed over [serverHost]; only its installation is recorded. *)
Definition buildMenu (host : string) : M unit := emit (SetApplicationMenu host).

(** [createMainWindow]: the options give a height of 800 and no width (800
    is Electron's default) and leave [show] at its default, true.  The
    listeners for 'closed', 'show' and 'hide' run in later turns. *)
Definition createMainWindow (host : string) : M unit :=
  newBrowserWindow Main 800 800 true ;;;
  loadURL Main (hostUrl host) ;;;
  w <- get ;;
  when (String.eqb (platform w) "darwin") (emit DockSetIcon) ;;;
  updateDockVisibility ;;;
  buildMenu host.

(** [createCompanionWindow]: 400x600, [show: false]; the style sheet and
    the close button are injected by a 'did-finish-load' listener in a
    later turn. *)
Definition createCompanionWindow (host : string) : M unit :=
  newBrowserWindow Companion 400 600 false ;;;
  emit (ConsoleLog "Loading URL for companion:") ;;;
  loadURL Companion (hostUrl host).

Definition initialize : M unit :=
  w <- get ;;
  let savedHost := serverHost (store w) in
  emit (ConsoleLog "Saved host:") ;;;
  if truthy savedHost then
    createCompanionWindow (default "" savedHost) ;;;
    createMainWindow (default "" savedHost)
  else createLoginWindow.

(** [getWindowPosition]: the numbers are the integers Electron reports;
    [screenWidth / 2], [screenHeight * 0.1] and the differences are taken over
    the rationals, where [0.1] is one tenth.  (On integer lengths the
    halves and differences are exact in double precision, and the double
    nearest to one tenth lies above it, so a product that is exactly half
    way between two integers is rounded up in both readings.) *)
Definition getWindowPosition (overridePosition : option string) : M Point.t :=
  windowBounds <- getBounds Companion ;;
  w <- get ;;
  let screenWidth := inject_Z (width (workAreaSize w)) in
  let screenHeight := inject_Z (height (workAreaSize w)) in
  let windowWidth := inject_Z (rect_width windowBounds) in
  let windowHeight := inject_Z (rect_height windowBounds) in
  let settings := default {[ "position" := "top-center" ]} (settings (store w)) in
  let position := js_or overridePosition (settings !! "position") in
  ret (if strict_eq position "bottom-center" then
         {| Point.x := Math_round (screenWidth / 2 - windowWidth / 2)%Q;
            Point.y := Math_round (screenHeight - windowHeight - 20)%Q |}
       else if strict_eq position "bottom-left" then
         {| Point.x := 20;
            Point.y := Math_round (screenHeight - windowHeight - 20)%Q |}
       else if strict_eq position "bottom-right" then
         {| Point.x := Math_round (screenWidth - windowWidth - 20)%Q;
            Point.y := Math_round (screenHeight - windowHeight - 20)%Q |}
       else if strict_eq position "center" then
         {| Point.x := Math_round (screenWidth / 2 - windowWidth / 2)%Q;
            Point.y := Math_round (screenHeight / 2 - windowHeight / 2)%Q |}
       else if strict_eq position "top-right" then
         {| Point.x := Math_round (screenWidth - windowWidth - 20)%Q;
            Point.y := Math_round (screenHeight * (1 # 10))%Q |}
       else
         (* case 'top-center': default: *)
         {| Point.x := Math_round (screenWidth / 2 - windowWidth / 2)%Q;
            Point.y := Math_round (screenHeight * (1 # 10))%Q |}).

(** The script of [showWindow], which focuses the page's input field after
    100 ms; its failure is caught and logged. *)
Definition focusScript : string :=
  "focus the first textarea, text input or contenteditable".

Definition showWindow : M unit :=
  p <- getWindowPosition None ;;
  setPosition Companion (Point.x p) (Point.y p) false ;;;
  show Companion ;;;
  focus Companion ;;;
  executeJavaScript Companion focusScript.

Definition toggleWindow : M unit :=
  v <- isVisible Companion ;;
  if v then
    f <- isFocused Companion ;;
    if f then hide Companion else focus Companion
  else showWindow.

(** *** The tray *)

Definition defaultSettings : gmap string string :=
  <["position" := "top-center"]>
    (<["resetTimer" := "10m"]>
       (<["openNewChats" := "companion"]>
          (<["trayVisibility" := "always"]> ∅))).

(** The template handed to [Menu.buildFromTemplate] in [createTray]. *)
Definition trayTemplate (settings : gmap string string) : Menu :=
  [ Item "Open Soluma Chat" None ClickOpenSolumaChat;
    Item "Open Companion" (Some "Option+Space") ClickToggleWindow;
    Separator;
    Submenu "Companion Position"
      [ {| radio_label := "Bottom Center";
           radio_checked := strict_eq (settings !! "position") "bottom-center";
           radio_click := ClickUpdateSetting "position" "bottom-center" |};
        {| radio_label := "Bottom Left";
           radio_checked := strict_eq (settings !! "position") "bottom-left";
           radio_click := ClickUpdateSetting "position" "bottom-left" |};
        {| radio_label := "Bottom Right";
           radio_checked := strict_eq (settings !! "position") "bottom-right";
           radio_click := ClickUpdateSetting "position" "bottom-right" |} ];
    Separator;
    Submenu "Show in Menu Bar"
      [ {| radio_label := "Always";
           radio_checked := strict_eq (settings !! "trayVisibility") "always";
           radio_click := ClickUpdateSetting "trayVisibility" "always" |};
        {| radio_label := "When app is running";
           radio_checked := strict_eq (settings !! "trayVisibility") "running";
           radio_click := ClickUpdateSetting "trayVisibility" "running" |};
        {| radio_label := "Never";
           radio_checked := strict_eq (settings !! "trayVisibility") "never";
           radio_click := ClickUpdateSetting "trayVisibility" "never" |} ];
    Separator;
    Role "Quit" "quit" ].

(** A method of the object in [tray]; it throws on [null] and on a
    destroyed tray. *)
Definition tray_call (f : Tray -> Tray) : M unit :=
  fun w =>
    match tray w with
    | None => Throw TypeErrorNull w
    | Some t =>
        if tray_destroyed t then Throw ObjectDestroyed w
        else Ok tt (set_tray (Some (f t)) w)
    end.

Definition tray_alive (w : World) : bool :=
  match tray w with
  | Some t => negb (tray_destroyed t)
  | None => false
  end.

Definition createTray : M unit :=
  w <- get ;;
  let settings := default defaultSettings (settings (store w)) in
  if strict_eq (settings !! "trayVisibility") "never" then
    when (tray_alive w)
      (emit TrayDestroy ;;; modify (set_tray None))
  else
    let contextMenu := trayTemplate settings in
    match tray w with
    | Some _ => ret tt
    | None =>
        modify (set_tray (Some {| tray_destroyed := false; toolTip := None;
                                  defaultContextMenu := None;
                                  on_click := []; on_right_click := [] |})) ;;;
        emit NewTray ;;;
        tray_call (fun t => {| tray_destroyed := tray_destroyed t;
                               toolTip := Some "Soluma Chat";
                               defaultContextMenu := defaultContextMenu t;
                               on_click := on_click t;
                               on_right_click := on_right_click t |})
    end ;;;
    (* tray.setContextMenu(null) *)
    tray_call (fun t => {| tray_destroyed := tray_destroyed t; toolTip := toolTip t;
                           defaultContextMenu := None;
                           on_click := on_click t;
                           on_right_click := on_right_click t |}) ;;;
    emit TraySetContextMenu ;;;
    (* removeAllListeners('click'), removeAllListeners('right-click'),
       then the two tray.on(...) *)
    tray_call (fun t => {| tray_destroyed := tray_destroyed t; toolTip := toolTip t;
                           defaultContextMenu := defaultContextMenu t;
                           on_click := [ListenToggleWindow];
                           on_right_click := [ListenPopUpContextMenu contextMenu] |}).

(** [updateSetting]: [settings[key] = value] is an insertion into the
    record read from the store; [key] is a setting name, as at the call
    sites ("position", "trayVisibility"). *)
Definition updateSetting (key value : string) : M unit :=
  w <- get ;;
  let settings := default ∅ (settings (store w)) in
  store_set_settings (<[key := value]> settings) ;;;
  createTray ;;;
  w <- get ;;
  if String.eqb key "position" && nonNull Companion w then
    p <- getWindowPosition (Some value) ;;
    setPosition Companion (Point.x p) (Point.y p) true
  else ret tt.

(** *** Entry points run by the event loop *)

Definition runClick (c : ClickAction) : M unit :=
  match c with
  | ClickOpenSolumaChat =>
      w <- get ;;
      let savedHost := serverHost (store w) in
      if negb (alive Main w) then
        when (truthy savedHost) (createMainWindow (default "" savedHost))
      else show Main ;;; focus Main
  | ClickToggleWindow => toggleWindow
  | ClickUpdateSetting key value => updateSetting key value
  end.

Definition runListener (l : Listener) : M unit :=
  match l with
  | ListenToggleWindow => toggleWindow
  | ListenPopUpContextMenu contextMenu => emit (PopUpContextMenu contextMenu)
  end.

Fixpoint runListeners (ls : list Listener) : M unit :=
  match ls with
  | [] => ret tt
  | l :: ls' => runListener l ;;; runListeners ls'
  end.

(** The user left-clicks, or right-clicks, the tray icon (there is nothing
    to click when no live icon exists). *)
Definition trayClick : M unit :=
  w <- get ;;
  match tray w with
  | Some t => if tray_destroyed t then ret tt else runListeners (on_click t)
  | None => ret tt
  end.

Definition trayRightClick : M unit :=
  w <- get ;;
  match tray w with
  | Some t => if tray_destroyed t then ret tt else runListeners (on_right_click t)
  | None => ret tt
  end.

(** The callback registered for "Option+Space". *)
Definition hotkeyPressed : M unit :=
  emit (ConsoleLog "Option+Space is pressed") ;;;
  w <- get ;;
  when (alive Companion w) toggleWindow.

(** The [app.whenReady] callback up to its first [await]: the analytics
    call and the later import of the keyboard shortcuts module are outside
    the coordinator. *)
Definition whenReady : M unit :=
  emit (ConsoleLog "App is ready") ;;;
  updateDockVisibility ;;;
  initialize ;;;
  createTray ;;;
  w <- get ;;
  let ret_ := shortcutFree w in
  emit (RegisterShortcut "Option+Space" ret_) ;;;
  modify (set_hotkeyRegistered ret_) ;;;
  when (negb ret_) (emit (ConsoleLog "registration failed")).

(** [ipcMain.on("hide-companion")] *)
Definition hideCompanion : M unit :=
  w <- get ;;
  when (alive Companion w) (hide Companion).

(** [ipcMain.on("submit-server-host")].  The handler either finishes in its
    own turn, or shows the warning dialog and returns: the [then] callback
    runs in a later turn, on the state of that moment, with the index of the
    button the user chose. *)
Inductive Pending :=
| Finished (r : Result unit)
| AwaitMessageBox (w : World) (callback : Z -> M unit).

Definition submitContinuation (host : string) (response : Z) : M unit :=
  if Z.eqb response 0 then
    store_set_serverHost host ;;;
    createMainWindow host ;;;
    createCompanionWindow host
  else
    emit (ConsoleLog "User cancelled due to security warning.") ;;;
    emit (IpcSend "clear-server-host-input").

Definition submitServerHost (host : string) (w : World) : Pending :=
  match emit (ConsoleLog "Saving server host:") w with
  | Throw e w' => Finished (Throw e w')
  | Ok _ w1 =>
      if String.prefix "http://" host then
        match emit (ShowMessageBox "Security Warning") w1 with
        | Throw e w' => Finished (Throw e w')
        | Ok _ w2 => AwaitMessageBox w2 (submitContinuation host)
        end
      else
        Finished ((store_set_serverHost host ;;;
                   createMainWindow host ;;;
                   createCompanionWindow host) w1)
  end.

(** The whole exchange when nothing else happens while the dialog is open. *)
Definition submitAndAnswer (host : string) (response : Z) (w : World) : Result unit :=
  match submitServerHost host w with
  | Finished r => r
  | AwaitMessageBox w' callback => callback response w'
  end.

(** The state of a freshly started process: every variable is [null]. *)
Definition boot (st : Store) (os : string) (area : Size) (free : bool) : World :=
  {| store := st; mainWindow := None; companionWindow := None; loginWindow := None;
     tray := None; platform := os; workAreaSize := area; shortcutFree := free;
     hotkeyRegistered := false; trace := [] |}.

(** ** The position resolver as the specification words it

    [resolve positionName windowBounds screenWorkArea], over the integers:
    "centred" is the nearest integer to half the free space, "10% of the
    height" the nearest integer to a tenth of it, halves rounded up. *)

Inductive PositionName :=
| TopCenter | BottomCenter | BottomLeft | BottomRight | Center | TopRight.

Definition positionNames : list (string * PositionName) :=
  [ ("top-center", TopCenter); ("bottom-center", BottomCenter);
    ("bottom-left", BottomLeft); ("bottom-right", BottomRight);
    ("center", Center); ("top-right", TopRight) ].

Definition recognized (name : option string) : bool :=
  existsb (fun p => strict_eq name (fst p)) positionNames.

(** An unrecognized name, or none, is [top-center]. *)
Definition namedPosition (name : option string) : PositionName :=
  match find (fun p => strict_eq name (fst p)) positionNames with
  | Some p => snd p
  | None => TopCenter
  end.

Definition centered (screen window : Z) : Z := (screen - window + 1) / 2.
Definition tenth (screen : Z) : Z := (screen + 5) / 10.

Definition resolve (positionName : PositionName) (windowBounds screenWorkArea : Size)
  : Point.t :=
  let screenWidth := width screenWorkArea in
  let screenHeight := height screenWorkArea in
  let windowWidth := width windowBounds in
  let windowHeight := height windowBounds in
  match positionName with
  | BottomCenter =>
      {| Point.x := centered screenWidth windowWidth;
         Point.y := screenHeight - windowHeight - 20 |}
  | BottomLeft =>
      {| Point.x := 20; Point.y := screenHeight - windowHeight - 20 |}
  | BottomRight =>
      {| Point.x := screenWidth - windowWidth - 20;
         Point.y := screenHeight - windowHeight - 20 |}
  | Center =>
      {| Point.x := centered screenWidth windowWidth;
         Point.y := centered screenHeight windowHeight |}
  | TopRight =>
      {| Point.x := screenWidth - windowWidth - 20; Point.y := tenth screenHeight |}
  | TopCenter =>
      {| Point.x := centered screenWidth windowWidth; Point.y := tenth screenHeight |}
  end.

Definition sizeOf (r : Rectangle) : Size :=
  {| width := rect_width r; height := rect_height r |}.

(** [settings.position] as [getWindowPosition] reads it. *)
Definition configuredPosition (w : World) : option string :=
  default {[ "position" := "top-center" ]} (settings (store w)) !! "position".

(** The box [[0, screenWidth - windowWidth] x [0, screenHeight - windowHeight]]. *)
Definition within (p : Point.t) (windowBounds screenWorkArea : Size) : Prop :=
  0 <= Point.x p <= width screenWorkArea - width windowBounds /\
  0 <= Point.y p <= height screenWorkArea - height windowBounds.

(** The free space a position needs for its point to lie in the box. *)
Definition fits (position : PositionName) (windowBounds screenWorkArea : Size)
  : Prop :=
  let freeWidth := width screenWorkArea - width windowBounds in
  let freeHeight := height screenWorkArea - height windowBounds in
  match position with
  | BottomCenter => 0 <= freeWidth /\ 20 <= freeHeight
  | BottomLeft => 20 <= freeWidth /\ 20 <= freeHeight
  | BottomRight => 20 <= freeWidth /\ 20 <= freeHeight
  | Center => 0 <= freeWidth /\ 0 <= freeHeight
  | TopRight => 20 <= freeWidth /\ tenth (height screenWorkArea) <= freeHeight
  | TopCenter => 0 <= freeWidth /\ tenth (height screenWorkArea) <= freeHeight
  end.

(** A window moved to a point, everything else as it was. *)
Definition movedTo (p : Point.t) (b : BrowserWindow) : BrowserWindow :=
  {| destroyed := destroyed b; visible := visible b; focused := focused b;
     bounds := {| rect_x := Point.x p; rect_y := Point.y p;
                  rect_width := rect_width (bounds b);
                  rect_height := rect_height (bounds b) |};
     url := url b |}.

(** ** Observations and sample states *)

(** The invariant of the [tray] variable: the program destroys the icon only
    in [createTray], which clears the variable in the same step. *)
Definition tray_ok (w : World) : Prop :=
  match tray w with
  | Some t => tray_destroyed t = false
  | None => True
  end.

(** The companion variable is [null] or holds a live window. *)
Definition companion_ok (w : World) : Prop :=
  match companionWindow w with
  | Some b => destroyed b = false
  | None => True
  end.

(** [w] with further effects recorded. *)
Definition logged (es : list Effect) (w : World) : World :=
  set_trace (trace w ++ es)%list w.

(** The windows created, in order of creation. *)
Fixpoint windowCreations (es : list Effect) : list WindowKind :=
  match es with
  | [] => []
  | NewBrowserWindow k _ :: es' => k :: windowCreations es'
  | _ :: es' => windowCreations es'
  end.

(** The steps of the startup sequence that leave a mark outside the process. *)
Definition isMilestone (e : Effect) : bool :=
  match e with
  | NewBrowserWindow _ _ | SetApplicationMenu _ | NewTray | TrayDestroy
  | RegisterShortcut _ _ => true
  | _ => false
  end.

Definition milestones (es : list Effect) : list Effect := filter isMilestone es.

(** The tray icon as [createTray] leaves it for the settings [s]. *)
Definition wiredTray (s : gmap string string) (tip : option string) : Tray :=
  {| tray_destroyed := false; toolTip := tip; defaultContextMenu := None;
     on_click := [ListenToggleWindow];
     on_right_click := [ListenPopUpContextMenu (trayTemplate s)] |}.

(** The radio entries of the submenu with a given label, and the setting
    values they select. *)
Fixpoint radioGroup (label : string) (m : Menu) : list RadioItem :=
  match m with
  | [] => []
  | Submenu l items :: m' => if String.eqb l label then items else radioGroup label m'
  | _ :: m' => radioGroup label m'
  end.

Definition radioValue (r : RadioItem) : option (string * string) :=
  match radio_click r with
  | ClickUpdateSetting key value => Some (key, value)
  | _ => None
  end.

Definition emptyStore : Store :=
  {| serverHost := None; computerId := None; settings := None |}.

Definition hostStore (host : string) (s : option (gmap string string)) : Store :=
  {| serverHost := Some host; computerId := None; settings := s |}.

Definition fullHD : Size := {| width := 1920; height := 1080 |}.

(** A live window of the companion's initial size. *)
Definition companion400x600 (vis foc : bool) : BrowserWindow :=
  {| destroyed := false; visible := vis; focused := foc;
     bounds := {| rect_x := 0; rect_y := 0; rect_width := 400; rect_height := 600 |};
     url := Some "https://chat.example.com" |}.

(** A running session: the state the process reaches when it starts with a
    host and the given position stored, on a display with the given work
    area.  The companion window is hidden, the tray icon is present. *)
Definition session (position : string) (area : Size) : World :=
  final (whenReady
           (boot (hostStore "chat.example.com" (Some {[ "position" := position ]}))
              "linux" area true)).

(** A window after [hide()], and after [show()] and [focus()]. *)
Definition hiddenWindow (b : BrowserWindow) : BrowserWindow :=
  {| destroyed := destroyed b; visible := false; focused := false;
     bounds := bounds b; url := url b |}.

Definition shownWindow (b : BrowserWindow) : BrowserWindow :=
  {| destroyed := destroyed b; visible := true; focused := true;
     bounds := bounds b; url := url b |}.

(** The settings [createTray] works from, and the store after
    [store.set('settings', s)]. *)
Definition traySettings (w : World) : gmap string string :=
  default defaultSettings (settings (store w)).

Definition withSettings (s : gmap string string) (w : World) : World :=
  set_store {| serverHost := serverHost (store w); computerId := computerId (store w);
               settings := Some s |} w.

(** What [createTray] leaves in [tray], and what it adds to the trace. *)
Definition trayAfter (w : World) : option Tray :=
  if strict_eq (traySettings w !! "trayVisibility") "never" then None
  else Some (wiredTray (traySettings w)
               (match tray w with
                | Some t => toolTip t
                | None => Some "Soluma Chat"
                end)).

Definition trayEffects (w : World) : list Effect :=
  if strict_eq (traySettings w !! "trayVisibility") "never" then
    if tray_alive w then [TrayDestroy] else []
  else
    match tray w with
    | Some _ => [TraySetContextMenu]
    | None => [NewTray; TraySetContextMenu]
    end.

(** A computation that leaves the persisted store as it found it, whether
    it returns or throws. *)
Definition keeps_store {A} (m : M A) : Prop :=
  forall w, store (final (m w)) = store w.

(** A window as [new BrowserWindow] and [loadURL] leave it. *)
Definition freshWindow (w h : Z) (shown : bool) (target : string) : BrowserWindow :=
  {| destroyed := false; visible := shown; focused := shown;
     bounds := {| rect_x := 0; rect_y := 0; rect_width := w; rect_height := h |};
     url := Some target |}.

(** The traces of [createMainWindow] and [createCompanionWindow]. *)
Definition mainEffects (os host : string) : list Effect :=
  ([NewBrowserWindow Main true; LoadURL Main (hostUrl host)]
   ++ (if String.eqb os "darwin" then [DockSetIcon; DockShow] else [])
   ++ [SetApplicationMenu host])%list.

Definition companionEffects (host : string) : list Effect :=
  [NewBrowserWindow Companion false; ConsoleLog "Loading URL for companion:";
   LoadURL Companion (hostUrl host)].

Definition withHost (host : string) (w : World) : World :=
  set_store {| serverHost := Some host; computerId := computerId (store w);
               settings := settings (store w) |} w.

(** The state after the host was accepted: host stored, Main created, then
    Companion. *)
Definition persistAndCreate (host : string) (w : World) : World :=
  logged ([StoreSet "serverHost"] ++ mainEffects (platform w) host
          ++ companionEffects host)
    (set_companionWindow (Some (freshWindow 400 600 false (hostUrl host)))
       (set_mainWindow (Some (freshWindow 800 800 true (hostUrl host)))
          (withHost host w))).

(** The state after the user cancelled the warning. *)
Definition cancelled (w : World) : World :=
  logged [ConsoleLog "User cancelled due to security warning.";
          IpcSend "clear-server-host-input"] w.

(** The state [updateSetting] leaves after storing [s] and running
    [createTray]. *)
Definition afterTray (s : gmap string string) (w : World) : World :=
  logged (StoreSet "settings" :: trayEffects (withSettings s w))
    (set_tray (trayAfter (withSettings s w)) (withSettings s w)).

(** The four stages of [whenReady] after its first log line:
    [updateDockVisibility], [initialize], [createTray] and the registration
    of the accelerator. *)
Definition docked (w : World) : World :=
  if String.eqb (platform w) "darwin" then
    logged [match mainWindow w with
            | Some b => if negb (destroyed b) && visible b then DockShow else DockHide
            | None => DockHide
            end] w
  else w.

Definition initialized (w : World) : World :=
  if truthy (serverHost (store w)) then
    let host := default "" (serverHost (store w)) in
    logged ([ConsoleLog "Saved host:"] ++ companionEffects host
            ++ mainEffects (platform w) host)
      (set_mainWindow (Some (freshWindow 800 800 true (hostUrl host)))
         (set_companionWindow (Some (freshWindow 400 600 false (hostUrl host))) w))
  else
    logged [ConsoleLog "Saved host:"; NewBrowserWindow Login true;
            ConsoleLog "Loading login page from:"; LoadFile Login "login.html"]
      (set_loginWindow (Some (freshWindow 600 800 true "login.html")) w).

Definition trayed (w : World) : World :=
  logged (trayEffects w) (set_tray (trayAfter w) w).

Definition registered (w : World) : World :=
  logged (RegisterShortcut "Option+Space" (shortcutFree w)
          :: (if shortcutFree w then [] else [ConsoleLog "registration failed"]))
    (set_hotkeyRegistered (shortcutFree w) w).

Definition started (w : World) : World :=
  registered (trayed (initialized (docked (logged [ConsoleLog "App is ready"] w)))).

(** ** The rest of the main process

    The functions and listeners of [index.js] that the sections above do
    not need: the computer id, the reset and disconnect paths, the menu
    entry that brings the tray icon back, and what the window system does
    to the windows between two callbacks. *)

(** [getUniqueComputerId]; [fresh] is what [randomUUID()] would return, and
    it is asked for only when no id is stored. *)
Definition getUniqueComputerId (fresh : string) : M string :=
  w <- get ;;
  let stored := computerId (store w) in
  if truthy stored then ret (default "" stored)
  else
    modify (fun w => set_store {| serverHost := serverHost (store w);
                                  computerId := Some fresh;
                                  settings := settings (store w) |} w) ;;;
    emit (StoreSet "computerId") ;;;
    ret fresh.

(** [store.delete("serverHost")]; the deletion shows in [store]. *)
Definition store_delete_serverHost : M unit :=
  modify (fun w => set_store {| serverHost := None;
                                computerId := computerId (store w);
                                settings := settings (store w) |} w).

(** [win.close()] asks the window system to close the window, which the
    page may still prevent; the window is gone when the window system
    reports it, [windowClosed] below.  The call itself throws on [null] and
    on a destroyed window like every other method. *)
Definition close (k : WindowKind) : M unit := call k (fun b => (tt, b)).

(** [ipcMain.on("reset-server")] *)
Definition resetServer : M unit :=
  emit (ConsoleLog "Resetting server configuration") ;;;
  store_delete_serverHost ;;;
  w <- get ;;
  when (nonNull Main w) (close Main) ;;;
  w <- get ;;
  when (nonNull Companion w) (close Companion) ;;;
  createLoginWindow.

(** The entry "Disconnect from host" of the application menu: the click
    shows the confirmation dialog, the rest runs when it is answered. *)
Definition disconnectCallback (response : Z) : M unit :=
  if Z.eqb response 0 then
    emit (ConsoleLog "Resetting server configuration from menu") ;;;
    store_delete_serverHost ;;;
    w <- get ;;
    when (nonNull Main w) (close Main) ;;;
    createLoginWindow
  else ret tt.

Definition disconnectClicked (w : World) : Pending :=
  match emit (ShowMessageBox "Disconnect Confirmation") w with
  | Throw e w' => Finished (Throw e w')
  | Ok _ w1 => AwaitMessageBox w1 disconnectCallback
  end.

(** The entry "Show Tray Icon" of the View menu. *)
Definition showTrayIcon : M unit :=
  w <- get ;;
  let settings := default ∅ (settings (store w)) in
  store_set_settings (<["trayVisibility" := "always"]> settings) ;;;
  createTray.

(** [app.on("activate")]; [openWindows] is the length of
    [BrowserWindow.getAllWindows()], which the window system knows. *)
Definition activate (openWindows : nat) : M unit :=
  if Nat.eqb openWindows 0 then initialize else ret tt.

(** The window system has closed the window of kind [k]: the native object
    is destroyed and the 'closed' listeners run.  Only the main window has
    one ([mainWindow = null; updateDockVisibility()]); the companion and the
    login variable keep their reference. *)
Definition destroyedWindow (b : BrowserWindow) : BrowserWindow :=
  {| destroyed := true; visible := false; focused := false;
     bounds := bounds b; url := url b |}.

Definition windowClosed (k : WindowKind) : M unit :=
  w <- get ;;
  match variable k w with
  | Some b =>
      modify (assign k (Some (destroyedWindow b))) ;;;
      match k with
      | Main => modify (assign Main None) ;;; updateDockVisibility
      | _ => ret tt
      end
  | None => ret tt
  end.

(** The companion window loses input focus, or the user drags or resizes
    it. *)
Definition companionBlurred : M unit :=
  modify (fun w => match companionWindow w with
                   | Some b =>
                       set_companionWindow
                         (Some {| destroyed := destroyed b; visible := visible b;
                                  focused := false; bounds := bounds b;
                                  url := url b |}) w
                   | None => w
                   end).

Definition companionReshaped (r : Rectangle) : M unit :=
  modify (fun w => match companionWindow w with
                   | Some b =>
                       set_companionWindow
                         (Some {| destroyed := destroyed b; visible := visible b;
                                  focused := focused b; bounds := r;
                                  url := url b |}) w
                   | None => w
                   end).

(** Everything that can happen after startup, one callback per event.
    The answer to a dialog is an event of its own, so other events may come
    between the question and the answer. *)
Inductive Event :=
| OnHotkey
| OnTrayClick
| OnTrayRightClick
| OnMenuClick (c : ClickAction)
| OnHideCompanion
| OnSubmitHost (host : string)
| OnWarningAnswered (host : string) (response : Z)
| OnResetServer
| OnDisconnectClicked
| OnDisconnectAnswered (response : Z)
| OnShowTrayIcon
| OnActivate (openWindows : nat)
| OnWindowClosed (k : WindowKind)
| OnMainShownOrHidden
| OnCompanionBlurred
| OnCompanionReshaped (r : Rectangle).

Definition started_of (p : Pending) : Result unit :=
  match p with
  | Finished r => r
  | AwaitMessageBox w _ => Ok tt w
  end.

Definition handler (e : Event) : M unit :=
  match e with
  | OnHotkey => hotkeyPressed
  | OnTrayClick => trayClick
  | OnTrayRightClick => trayRightClick
  | OnMenuClick c => runClick c
  | OnHideCompanion => hideCompanion
  | OnSubmitHost host => fun w => started_of (submitServerHost host w)
  | OnWarningAnswered host response => submitContinuation host response
  | OnResetServer => resetServer
  | OnDisconnectClicked => fun w => started_of (disconnectClicked w)
  | OnDisconnectAnswered response => disconnectCallback response
  | OnShowTrayIcon => showTrayIcon
  | OnActivate n => activate n
  | OnWindowClosed k => windowClosed k
  | OnMainShownOrHidden => updateDockVisibility
  | OnCompanionBlurred => companionBlurred
  | OnCompanionReshaped r => companionReshaped r
  end.

(** [process.on("uncaughtException")]: an exception that leaves a callback
    is written to the console and the process goes on with the state the
    callback reached. *)
Definition dispatch (m : M unit) (w : World) : World :=
  match m w with
  | Ok _ w' => w'
  | Throw _ w' => logged [ConsoleLog "An uncaught error occurred:"] w'
  end.

Definition run (events : list Event) (w : World) : World :=
  fold_left (fun w e => dispatch (handler e) w) events w.

(** *** Views of the state *)

(** What the operations on windows never touch. *)
Definition background (w : World) : Store * option Tray * bool :=
  (store w, tray w, hotkeyRegistered w).

(** What the tray depends on. *)
Definition tray_view (w : World) : option Tray * option (gmap string string) :=
  (tray w, settings (store w)).

(** A computation that leaves the view [f] of the state as it found it,
    whether it returns or throws. *)
Definition frames {X A} (f : World -> X) (m : M A) : Prop :=
  forall w, f (final (m w)) = f w.

(** The tray agrees with the stored settings: no icon when [trayVisibility]
    is "never", otherwise a live icon whose left click toggles and whose
    right click pops the menu of the settings as stored now. *)
Definition tray_synced (w : World) : Prop :=
  if strict_eq (traySettings w !! "trayVisibility") "never" then tray w = None
  else exists tip, tray w = Some (wiredTray (traySettings w) tip).

(** The companion window after [toggleWindow], and the effects of the
    call, for a live window [b] that would be shown at [p]. *)
Definition toggledWindow (p : Point.t) (b : BrowserWindow) : BrowserWindow :=
  if visible b then
    if focused b then hiddenWindow b else shownWindow b
  else shownWindow (movedTo p b).

Definition toggleEffects (p : Point.t) (b : BrowserWindow) : list Effect :=
  if visible b then
    if focused b then [WindowHide Companion] else [WindowFocus Companion]
  else [SetPosition (Point.x p) (Point.y p) false; WindowShow Companion;
        WindowFocus Companion; ExecuteJavaScript focusScript].

(** Where [showWindow] puts a window of the bounds of [b]. *)
Definition shownAt (w : World) (b : BrowserWindow) : Point.t :=
  resolve (namedPosition (configuredPosition w)) (sizeOf (bounds b)) (workAreaSize w).

(** The events that act on windows only. *)
Definition windowEvent (e : Event) : bool :=
  match e with
  | OnHotkey | OnTrayClick | OnTrayRightClick | OnHideCompanion
  | OnMenuClick ClickToggleWindow | OnMenuClick ClickOpenSolumaChat
  | OnActivate _ | OnWindowClosed _ | OnMainShownOrHidden
  | OnCompanionBlurred | OnCompanionReshaped _ => true
  | _ => false
  end.

(** The events that write the settings record. *)
Definition settingsEvent (e : Event) : bool :=
  match e with
  | OnMenuClick (ClickUpdateSetting _ _) | OnShowTrayIcon => true
  | _ => false
  end.

(** Margins of a window of extent [window] placed at [at_] on a screen of
    extent [screen]: centred up to the odd pixel, a fixed gap after it, a
    tenth of the screen before it. *)
Definition centred_within (at_ window screen : Z) : Prop :=
  0 <= at_ - (screen - window - at_) <= 1.

Definition gap_after (at_ window screen : Z) : Z := screen - (at_ + window).

Definition tenth_before (at_ screen : Z) : Prop := -5 < 10 * at_ - screen <= 5.

Definition margins (position : PositionName) (p : Point.t)
    (windowBounds area : Size) : Prop :=
  let horizontally_centred := centred_within (Point.x p) (width windowBounds) (width area) in
  let right_gap := gap_after (Point.x p) (width windowBounds) (width area) in
  let bottom_gap := gap_after (Point.y p) (height windowBounds) (height area) in
  match position with
  | BottomCenter => horizontally_centred /\ bottom_gap = 20
  | BottomLeft => Point.x p = 20 /\ bottom_gap = 20
  | BottomRight => right_gap = 20 /\ bottom_gap = 20
  | Center =>
      horizontally_centred
      /\ centred_within (Point.y p) (height windowBounds) (height area)
  | TopRight => right_gap = 20 /\ tenth_before (Point.y p) (height area)
  | TopCenter => horizontally_centred /\ tenth_before (Point.y p) (height area)
  end.

(** The main variable is [null] or holds a live window. *)
Definition main_ok (w : World) : Prop :=
  match mainWindow w with
  | Some b => destroyed b = false
  | None => True
  end.

Definition withoutHost (w : World) : World :=
  set_store {| serverHost := None; computerId := computerId (store w);
               settings := settings (store w) |} w.

(** The state after the login window was opened. *)
Definition loginOpened (es : list Effect) (w : World) : World :=
  logged (es ++ [NewBrowserWindow Login true; ConsoleLog "Loading login page from:";
                 LoadFile Login "login.html"])
    (set_loginWindow (Some (freshWindow 600 800 true "login.html")) w).

(** ** Tactics

    [run_world] evaluates the monad and the record updates and nothing else
    (strings, traces and maps stay as written); [same_trace] then equates
    two traces up to the bracketing of [++]. *)

Ltac run_world :=
  lazy beta iota zeta delta
    [bind ret get modify emit when call variable assign
     store mainWindow companionWindow loginWindow tray platform workAreaSize
     shortcutFree hotkeyRegistered trace destroyed visible focused bounds url
     serverHost computerId settings negb andb
     set_store set_mainWindow set_companionWindow set_loginWindow set_tray
     set_hotkeyRegistered set_trace logged withHost withSettings
     store_set_serverHost store_set_settings
     newBrowserWindow loadURL loadFile buildMenu freshWindow
     tray_call tray_destroyed toolTip defaultContextMenu on_click on_right_click
     wiredTray].

Ltac same_trace :=
  repeat first [rewrite <- app_assoc | progress cbn [app]]; reflexivity.

(** ** Rounding *)

Lemma Math_round_frac (q : Q) (n : Z) (d : positive) :
  (q + (1 # 2) == n # d)%Q -> Math_round q = n / Z.pos d.
Proof.
  intros H. unfold Math_round. rewrite H. reflexivity.
Qed.

Ltac q_to_z :=
  unfold Qeq, Qdiv, Qminus, Qplus, Qmult, Qopp, Qinv, inject_Z; simpl; lia.

Lemma Math_round_centered (a b : Z) :
  Math_round (inject_Z a / 2 - inject_Z b / 2)%Q = centered a b.
Proof. unfold centered. apply Math_round_frac. q_to_z. Qed.

Lemma Math_round_margin (a b : Z) :
  Math_round (inject_Z a - inject_Z b - 20)%Q = a - b - 20.
Proof.
  rewrite (Math_round_frac _ (2 * (a - b - 20) + 1) 2).
  - Z.to_euclidean_division_equations. lia.
  - q_to_z.
Qed.

Lemma Math_round_tenth (a : Z) :
  Math_round (inject_Z a * (1 # 10))%Q = tenth a.
Proof.
  unfold tenth. rewrite (Math_round_frac _ (2 * a + 10) 20).
  - Z.to_euclidean_division_equations. lia.
  - q_to_z.
Qed.

(** [Math.round] does return the nearest integer. *)
Lemma Math_round_nearest (q : Q) :
  (inject_Z (Math_round q) - (1 # 2) <= q)%Q /\
  (q < inject_Z (Math_round q) + (1 # 2))%Q.
Proof.
  unfold Math_round.
  pose proof (Qfloor_le (q + (1 # 2))) as Hle.
  pose proof (Qlt_floor (q + (1 # 2))) as Hlt.
  rewrite inject_Z_plus in Hlt. change (inject_Z 1) with 1%Q in Hlt.
  split; lra.
Qed.

(** The integer formulas of [resolve] are nearest integers too. *)
Lemma centered_nearest (screen window : Z) :
  0 <= 2 * centered screen window - (screen - window) <= 1.
Proof. unfold centered. Z.to_euclidean_division_equations. lia. Qed.

Lemma tenth_nearest (screen : Z) :
  -5 < 10 * tenth screen - screen <= 5.
Proof. unfold tenth. Z.to_euclidean_division_equations. lia. Qed.

(** ** The position resolver *)

(** The [switch] of [getWindowPosition] selects by name as the table of
    position names does, [default:] taking every other value. *)
Lemma namedPosition_cases (position : option string) (A : Type) (bc bl br c tr tc : A) :
  (if strict_eq position "bottom-center" then bc
   else if strict_eq position "bottom-left" then bl
   else if strict_eq position "bottom-right" then br
   else if strict_eq position "center" then c
   else if strict_eq position "top-right" then tr
   else tc)
  = match namedPosition position with
    | BottomCenter => bc | BottomLeft => bl | BottomRight => br
    | Center => c | TopRight => tr | TopCenter => tc
    end.
Proof.
  destruct position as [s|]; [|reflexivity].
  unfold namedPosition, positionNames, find, strict_eq, fst, snd.
  destruct (String.eqb_spec s "top-center") as [->|_]; [reflexivity|].
  destruct (String.eqb_spec s "bottom-center") as [->|_]; [reflexivity|].
  destruct (String.eqb_spec s "bottom-left") as [->|_]; [reflexivity|].
  destruct (String.eqb_spec s "bottom-right") as [->|_]; [reflexivity|].
  destruct (String.eqb_spec s "center") as [->|_]; [reflexivity|].
  destruct (String.eqb_spec s "top-right") as [->|_]; reflexivity.
Qed.

Lemma namedPosition_table (name : string) (P : PositionName) :
  In (name, P) positionNames -> namedPosition (Some name) = P.
Proof.
  unfold positionNames. cbn [In]. intros H.
  repeat (destruct H as [H|H]; [inversion H; subst; reflexivity|]).
  destruct H.
Qed.

Lemma namedPosition_unrecognized (position : option string) :
  recognized position = false -> namedPosition position = TopCenter.
Proof.
  unfold recognized, namedPosition, positionNames. cbn [existsb find fst snd].
  intros H.
  repeat (apply orb_false_elim in H; destruct H as [-> H]).
  reflexivity.
Qed.

Lemma set_companionWindow_same (w : World) (b : BrowserWindow) :
  companionWindow w = Some b -> set_companionWindow (Some b) w = w.
Proof. destruct w; cbn; intros ->; reflexivity. Qed.

Lemma getWindowPosition_live (w : World) (b : BrowserWindow)
    (overridePosition : option string) :
  companionWindow w = Some b -> destroyed b = false ->
  getWindowPosition overridePosition w
  = Ok (resolve (namedPosition (js_or overridePosition (configuredPosition w)))
          (sizeOf (bounds b)) (workAreaSize w)) w.
Proof.
  intros Hb Hlive.
  unfold getWindowPosition, bind, getBounds, call, get, ret, variable.
  rewrite Hb, Hlive. cbn [assign].
  rewrite (set_companionWindow_same _ _ Hb). fold (configuredPosition w).
  rewrite !Math_round_centered, !Math_round_margin, !Math_round_tenth.
  rewrite namedPosition_cases.
  destruct (namedPosition _); reflexivity.
Qed.

(** C3. With a live companion window, [getWindowPosition] changes nothing
    and returns [resolve] of the effective position name, the window's
    bounds and the work area: each of the six names gets its formula, every
    other name gets the result of [top-center], and [bottom-right] with a
    400x600 window on a 1920x1080 work area gives (1500, 460). *)
Theorem getWindowPosition_resolve (w : World) (b : BrowserWindow)
    (overridePosition : option string) :
  companionWindow w = Some b -> destroyed b = false ->
  let position := js_or overridePosition (configuredPosition w) in
  let windowBounds := sizeOf (bounds b) in
  getWindowPosition overridePosition w
  = Ok (resolve (namedPosition position) windowBounds (workAreaSize w)) w
  /\ (forall name P, In (name, P) positionNames -> position = Some name ->
      getWindowPosition overridePosition w
      = Ok (resolve P windowBounds (workAreaSize w)) w)
  /\ (recognized position = false ->
      getWindowPosition overridePosition w
      = Ok (resolve TopCenter windowBounds (workAreaSize w)) w)
  /\ (position = Some "bottom-right" ->
      windowBounds = {| width := 400; height := 600 |} ->
      workAreaSize w = fullHD ->
      getWindowPosition overridePosition w
      = Ok {| Point.x := 1500; Point.y := 460 |} w).
Proof.
  intros Hb Hlive position windowBounds.
  pose proof (getWindowPosition_live w b overridePosition Hb Hlive) as Hres.
  fold position windowBounds in Hres.
  split; [exact Hres|]. split; [|split].
  - intros name P Hin Hname. rewrite Hres, Hname.
    now rewrite (namedPosition_table name P Hin).
  - intros Hun. rewrite Hres. now rewrite (namedPosition_unrecognized _ Hun).
  - intros Hname Hwin Harea. rewrite Hres, Hname, Hwin, Harea. reflexivity.
Qed.

Lemma getWindowPosition_resolve_witness :
  getWindowPosition None (session "bottom-right" fullHD)
  = Ok {| Point.x := 1500; Point.y := 460 |} (session "bottom-right" fullHD).
Proof.
  exact (proj2 (proj2 (proj2
           (getWindowPosition_resolve (session "bottom-right" fullHD)
              (companion400x600 false false) None eq_refl eq_refl)))
           eq_refl eq_refl eq_refl).
Defined.

(** The claim of C4 as it stands fails: with only 10 free pixels of width,
    [bottom-left] puts the window at x = 20, outside [[0, 10]]. *)
Lemma within_fails_narrow_screen :
  getWindowPosition None (session "bottom-left" {| width := 410; height := 1080 |})
  = Ok {| Point.x := 20; Point.y := 460 |}
       (session "bottom-left" {| width := 410; height := 1080 |})
  /\ ~ within {| Point.x := 20; Point.y := 460 |}
         {| width := 400; height := 600 |} {| width := 410; height := 1080 |}.
Proof.
  split.
  - exact (getWindowPosition_live
             (session "bottom-left" {| width := 410; height := 1080 |})
             (companion400x600 false false) None eq_refl eq_refl).
  - unfold within. cbn. lia.
Qed.

(** C4, amended. For positive window and screen dimensions, the position
    for each of the five variants lies in
    [[0, screenWidth - windowWidth] x [0, screenHeight - windowHeight]]
    exactly when the free space admits the offsets of the variant
    ([fits]): free width at least 0 for a centred x and at least 20 for a
    left or right x; free height at least 20 for the bottom variants, at
    least 0 for [center], and at least the tenth of the height for
    [top-right]. *)
Theorem getWindowPosition_within (w : World) (b : BrowserWindow)
    (overridePosition : option string) :
  companionWindow w = Some b -> destroyed b = false ->
  let position := namedPosition (js_or overridePosition (configuredPosition w)) in
  let windowBounds := sizeOf (bounds b) in
  let area := workAreaSize w in
  position <> TopCenter ->
  0 < width windowBounds -> 0 < height windowBounds ->
  0 < width area -> 0 < height area ->
  exists p,
    getWindowPosition overridePosition w = Ok p w
    /\ (within p windowBounds area <-> fits position windowBounds area).
Proof.
  intros Hb Hlive position windowBounds area Hpos Hw Hh Hsw Hsh.
  eexists. split; [apply (getWindowPosition_live w b overridePosition Hb Hlive)|].
  fold position windowBounds area.
  pose proof (centered_nearest (width area) (width windowBounds)).
  pose proof (centered_nearest (height area) (height windowBounds)).
  pose proof (tenth_nearest (height area)).
  unfold within, fits, resolve.
  destruct position; cbn [Point.x Point.y]; try congruence; lia.
Qed.

Lemma getWindowPosition_within_witness :
  exists p,
    getWindowPosition None
      (final (companionReshaped
                {| rect_x := 0; rect_y := 0; rect_width := 1910; rect_height := 600 |}
                (session "center" fullHD)))
    = Ok p (final (companionReshaped
                     {| rect_x := 0; rect_y := 0; rect_width := 1910;
                        rect_height := 600 |}
                     (session "center" fullHD)))
    /\ within p {| width := 1910; height := 600 |} fullHD.
Proof.
  destruct (getWindowPosition_within
              (final (companionReshaped
                        {| rect_x := 0; rect_y := 0; rect_width := 1910;
                           rect_height := 600 |}
                        (session "center" fullHD)))
              {| destroyed := false; visible := false; focused := false;
                 bounds := {| rect_x := 0; rect_y := 0; rect_width := 1910;
                              rect_height := 600 |};
                 url := Some "https://chat.example.com" |}
              None eq_refl eq_refl
              ltac:(vm_compute; discriminate)
              eq_refl eq_refl eq_refl eq_refl) as (p & Hrun & Hiff).
  exists p. split; [exact Hrun|].
  apply Hiff. vm_compute. split; discriminate.
Defined.

(** ** The companion window: one step at a time *)

Section LiveCompanion.
Variables (w : World) (b : BrowserWindow).
Hypothesis Hb : companionWindow w = Some b.
Hypothesis Hlive : destroyed b = false.

Lemma call_live {A} (f : BrowserWindow -> A * BrowserWindow) :
  call Companion f w
  = Ok (fst (f b)) (set_companionWindow (Some (snd (f b))) w).
Proof.
  unfold call, variable. rewrite Hb, Hlive. destruct (f b); reflexivity.
Qed.

Lemma isVisible_live : isVisible Companion w = Ok (visible b) w.
Proof.
  unfold isVisible. rewrite call_live. cbn.
  now rewrite (set_companionWindow_same _ _ Hb).
Qed.

Lemma isFocused_live : isFocused Companion w = Ok (focused b) w.
Proof.
  unfold isFocused. rewrite call_live. cbn.
  now rewrite (set_companionWindow_same _ _ Hb).
Qed.

Lemma hide_live :
  hide Companion w
  = Ok tt (logged [WindowHide Companion]
             (set_companionWindow (Some (hiddenWindow b)) w)).
Proof. unfold hide, bind. rewrite call_live. reflexivity. Qed.

Lemma focus_live :
  focus Companion w
  = Ok tt (logged [WindowFocus Companion]
             (set_companionWindow
                (Some {| destroyed := destroyed b; visible := visible b;
                         focused := true; bounds := bounds b; url := url b |}) w)).
Proof. unfold focus, bind. rewrite call_live. reflexivity. Qed.

Lemma setPosition_live (p : Point.t) (animate : bool) :
  setPosition Companion (Point.x p) (Point.y p) animate w
  = Ok tt (logged [SetPosition (Point.x p) (Point.y p) animate]
             (set_companionWindow (Some (movedTo p b)) w)).
Proof. unfold setPosition, bind. rewrite call_live. reflexivity. Qed.

Lemma showWindow_live :
  let p := resolve (namedPosition (configuredPosition w))
             (sizeOf (bounds b)) (workAreaSize w) in
  showWindow w
  = Ok tt (logged [SetPosition (Point.x p) (Point.y p) false;
                   WindowShow Companion; WindowFocus Companion;
                   ExecuteJavaScript focusScript]
             (set_companionWindow (Some (shownWindow (movedTo p b))) w)).
Proof.
  intros p. unfold showWindow, bind at 1.
  rewrite (getWindowPosition_live w b None Hb Hlive).
  change (js_or None (configuredPosition w)) with (configuredPosition w).
  fold p. unfold bind at 1. rewrite setPosition_live.
  destruct w; cbn in *. unfold logged, set_trace, set_companionWindow,
    show, focus, executeJavaScript, bind, call, emit, modify; cbn.
  rewrite Hlive. cbn.
  unfold shownWindow, movedTo; cbn. rewrite ?Hlive, <- ?app_assoc. reflexivity.
Qed.
End LiveCompanion.

Lemma toggleWindow_hidden (w : World) (b : BrowserWindow) :
  companionWindow w = Some b -> destroyed b = false -> visible b = false ->
  toggleWindow w = showWindow w.
Proof.
  intros Hb Hlive Hvis. unfold toggleWindow, bind.
  rewrite (isVisible_live w b Hb Hlive), Hvis. reflexivity.
Qed.

Lemma toggleWindow_focused (w : World) (b : BrowserWindow) :
  companionWindow w = Some b -> destroyed b = false ->
  visible b = true -> focused b = true ->
  toggleWindow w = hide Companion w.
Proof.
  intros Hb Hlive Hvis Hfoc. unfold toggleWindow, bind.
  rewrite (isVisible_live w b Hb Hlive), Hvis.
  rewrite (isFocused_live w b Hb Hlive), Hfoc. reflexivity.
Qed.

(** C1. On a live companion window [toggleWindow] hides it when it is
    visible and focused, focuses it without hiding when it is visible and
    unfocused, and shows it (positioned, focused) when it is hidden; two
    calls in a row from hidden show and then hide, ending hidden again. *)
Theorem toggleWindow_cases (w : World) (b : BrowserWindow) :
  companionWindow w = Some b -> destroyed b = false ->
  let p := resolve (namedPosition (configuredPosition w))
             (sizeOf (bounds b)) (workAreaSize w) in
  let showing := [SetPosition (Point.x p) (Point.y p) false;
                  WindowShow Companion; WindowFocus Companion;
                  ExecuteJavaScript focusScript] in
  (visible b = true -> focused b = true ->
   toggleWindow w
   = Ok tt (logged [WindowHide Companion]
              (set_companionWindow (Some (hiddenWindow b)) w)))
  /\ (visible b = true -> focused b = false ->
      toggleWindow w
      = Ok tt (logged [WindowFocus Companion]
                 (set_companionWindow (Some (shownWindow b)) w)))
  /\ (visible b = false ->
      toggleWindow w
      = Ok tt (logged showing
                 (set_companionWindow (Some (shownWindow (movedTo p b))) w)))
  /\ (visible b = false ->
      (toggleWindow ;;; toggleWindow) w
      = Ok tt (logged (showing ++ [WindowHide Companion])
                 (set_companionWindow (Some (hiddenWindow (movedTo p b))) w))).
Proof.
  intros Hb Hlive p showing.
  assert (Hshow : visible b = false ->
                  toggleWindow w
                  = Ok tt (logged showing
                             (set_companionWindow
                                (Some (shownWindow (movedTo p b))) w))).
  { intros Hvis. rewrite (toggleWindow_hidden w b Hb Hlive Hvis).
    apply (showWindow_live w b Hb Hlive). }
  repeat split.
  - intros Hvis Hfoc. rewrite (toggleWindow_focused w b Hb Hlive Hvis Hfoc).
    apply (hide_live w b Hb Hlive).
  - intros Hvis Hfoc. unfold toggleWindow, bind.
    rewrite (isVisible_live w b Hb Hlive), Hvis.
    rewrite (isFocused_live w b Hb Hlive), Hfoc.
    rewrite (focus_live w b Hb Hlive), Hvis. reflexivity.
  - exact Hshow.
  - intros Hvis. unfold bind at 1. rewrite (Hshow Hvis).
    set (b1 := shownWindow (movedTo p b)).
    set (w1 := logged showing (set_companionWindow (Some b1) w)).
    assert (Hb1 : companionWindow w1 = Some b1) by reflexivity.
    rewrite (toggleWindow_focused w1 b1 Hb1 Hlive eq_refl eq_refl).
    rewrite (hide_live w1 b1 Hb1 Hlive).
    unfold w1, b1, logged, set_trace, set_companionWindow.
    destruct w; cbn. now rewrite <- app_assoc.
Qed.

Lemma toggleWindow_cases_witness :
  (toggleWindow ;;; toggleWindow) (session "bottom-right" fullHD)
  = Ok tt (logged [SetPosition 1500 460 false; WindowShow Companion;
                   WindowFocus Companion; ExecuteJavaScript focusScript;
                   WindowHide Companion]
             (set_companionWindow
                (Some (hiddenWindow
                         (movedTo {| Point.x := 1500; Point.y := 460 |}
                            (companion400x600 false false))))
                (session "bottom-right" fullHD))).
Proof.
  exact (proj2 (proj2 (proj2
           (toggleWindow_cases (session "bottom-right" fullHD)
              (companion400x600 false false) eq_refl eq_refl))) eq_refl).
Defined.

(** ** The tray *)

Lemma strict_eq_true (a : option string) (s : string) :
  strict_eq a s = true <-> a = Some s.
Proof.
  destruct a as [s'|]; cbn; [|split; discriminate].
  destruct (String.eqb_spec s' s); split; congruence.
Qed.

Lemma createTray_never (w : World) :
  strict_eq (traySettings w !! "trayVisibility") "never" = true ->
  createTray w
  = Ok tt (if tray_alive w then logged [TrayDestroy] (set_tray None w) else w).
Proof.
  intros Hnever. unfold createTray, bind, get. fold (traySettings w).
  rewrite Hnever. destruct (tray_alive w); [|reflexivity].
  destruct w; reflexivity.
Qed.

Lemma createTray_fresh (w : World) :
  strict_eq (traySettings w !! "trayVisibility") "never" = false ->
  tray w = None ->
  createTray w
  = Ok tt (logged [NewTray; TraySetContextMenu]
             (set_tray (Some (wiredTray (traySettings w) (Some "Soluma Chat"))) w)).
Proof.
  intros Hvis Hnone. unfold createTray, bind, get. fold (traySettings w).
  rewrite Hvis, Hnone.
  destruct w; run_world; same_trace.
Qed.

Lemma createTray_existing (w : World) (t : Tray) :
  strict_eq (traySettings w !! "trayVisibility") "never" = false ->
  tray w = Some t -> tray_destroyed t = false ->
  createTray w
  = Ok tt (logged [TraySetContextMenu]
             (set_tray (Some (wiredTray (traySettings w) (toolTip t))) w)).
Proof.
  intros Hvis Hsome Hlive. unfold createTray, bind, get. fold (traySettings w).
  rewrite Hvis, Hsome.
  unfold ret, tray_call, emit, modify. rewrite Hsome, Hlive. cbn.
  unfold wiredTray. destruct w; reflexivity.
Qed.

(** Every radio entry of the template is checked exactly when the setting
    it selects is the stored one. *)
Lemma trayTemplate_checked (s : gmap string string) (r : RadioItem) :
  In r (radioGroup "Companion Position" (trayTemplate s)
        ++ radioGroup "Show in Menu Bar" (trayTemplate s))%list ->
  exists key value,
    radio_click r = ClickUpdateSetting key value
    /\ (radio_checked r = true <-> s !! key = Some value).
Proof.
  cbn. intros H.
  repeat (destruct H as [<-|H];
          [eexists _, _; split; [reflexivity|apply strict_eq_true]|]).
  destruct H.
Qed.

Lemma createTray_tray_ok (w : World) :
  tray_ok w -> returns (createTray w) = true /\ tray_ok (final (createTray w)).
Proof.
  unfold tray_ok. intros Hok.
  destruct (strict_eq (traySettings w !! "trayVisibility") "never") eqn:Hvis.
  - rewrite (createTray_never w Hvis). unfold tray_alive.
    destruct (tray w) as [t|] eqn:Ht; cbn.
    + rewrite Hok. cbn. auto.
    + rewrite Ht. auto.
  - destruct (tray w) as [t|] eqn:Ht.
    + rewrite (createTray_existing w t Hvis Ht Hok). cbn. auto.
    + rewrite (createTray_fresh w Hvis Ht). cbn. auto.
Qed.

Lemma createTray_shape (w : World) :
  tray_ok w ->
  createTray w = Ok tt (logged (trayEffects w) (set_tray (trayAfter w) w)).
Proof.
  unfold tray_ok, trayAfter, trayEffects. intros Hok.
  destruct (strict_eq (traySettings w !! "trayVisibility") "never") eqn:Hvis.
  - rewrite (createTray_never w Hvis). unfold tray_alive.
    destruct (tray w) as [t|] eqn:Ht.
    + now rewrite Hok.
    + destruct w; cbn in *; subst. unfold logged, set_trace; cbn.
      now rewrite app_nil_r.
  - destruct (tray w) as [t|] eqn:Ht.
    + apply (createTray_existing w t Hvis Ht Hok).
    + apply (createTray_fresh w Hvis Ht).
Qed.

(** [updateSetting] stores the changed record, then runs [createTray] and
    the position update on the state so reached. *)
Lemma updateSetting_steps (key value : string) (w : World) :
  updateSetting key value w
  = (createTray ;;;
     w' <- get ;;
     if String.eqb key "position" && nonNull Companion w' then
       p <- getWindowPosition (Some value) ;;
       setPosition Companion (Point.x p) (Point.y p) true
     else ret tt)
      (logged [StoreSet "settings"]
         (withSettings (<[key := value]> (default ∅ (settings (store w)))) w)).
Proof. reflexivity. Qed.

(** C7. [createTray] with [trayVisibility] "never" destroys a live icon,
    clears the variable and does nothing else; with "always" or "running" it
    creates the icon when there is none and keeps an existing one (tooltip
    untouched), and either way installs the listeners with a menu built from
    the settings just read, each radio entry checked exactly when it is the
    stored value; [updateSetting] of [trayVisibility] to "always" with no
    icon present creates one whose menu is built from the settings it has
    just stored. *)
Theorem createTray_ensures (w : World) :
  tray_ok w ->
  let s := traySettings w in
  (s !! "trayVisibility" = Some "never" ->
   createTray w
   = Ok tt (if tray_alive w then logged [TrayDestroy] (set_tray None w) else w))
  /\ (s !! "trayVisibility" = Some "always" \/ s !! "trayVisibility" = Some "running" ->
      createTray w
      = Ok tt (match tray w with
               | None =>
                   logged [NewTray; TraySetContextMenu]
                     (set_tray (Some (wiredTray s (Some "Soluma Chat"))) w)
               | Some t =>
                   logged [TraySetContextMenu]
                     (set_tray (Some (wiredTray s (toolTip t))) w)
               end))
  /\ (forall r,
        In r (radioGroup "Companion Position" (trayTemplate s)
              ++ radioGroup "Show in Menu Bar" (trayTemplate s))%list ->
        exists key value,
          radio_click r = ClickUpdateSetting key value
          /\ (radio_checked r = true <-> s !! key = Some value))
  /\ (tray w = None ->
      let s' := <["trayVisibility" := "always"]> (default ∅ (settings (store w))) in
      updateSetting "trayVisibility" "always" w
      = Ok tt (logged [StoreSet "settings"; NewTray; TraySetContextMenu]
                 (set_tray (Some (wiredTray s' (Some "Soluma Chat")))
                    (withSettings s' w)))).
Proof.
  intros Hok s. split; [|split; [|split]].
  - intros Hnever. apply createTray_never. now apply strict_eq_true.
  - intros Hvis.
    assert (Hne : strict_eq (s !! "trayVisibility") "never" = false)
      by (destruct Hvis as [-> | ->]; reflexivity).
    destruct (tray w) as [t|] eqn:Ht.
    + apply (createTray_existing w t Hne Ht). unfold tray_ok in Hok.
      now rewrite Ht in Hok.
    + apply (createTray_fresh w Hne Ht).
  - apply trayTemplate_checked.
  - intros Hnone s'. rewrite updateSetting_steps. fold s'.
    set (w1 := logged [StoreSet "settings"] (withSettings s' w)).
    unfold bind at 1.
    assert (Hs1 : traySettings w1 = s') by reflexivity.
    assert (Hne : strict_eq (traySettings w1 !! "trayVisibility") "never" = false).
    { rewrite Hs1. unfold s'. now rewrite lookup_insert_eq. }
    rewrite (createTray_fresh w1 Hne Hnone). rewrite Hs1.
    unfold bind, get. cbn [String.eqb Ascii.eqb Bool.eqb andb ret].
    unfold w1, logged, set_trace, set_tray, withSettings, set_store.
    destruct w; cbn. now rewrite <- app_assoc.
Qed.

Lemma createTray_ensures_witness :
  createTray (boot emptyStore "linux" fullHD true)
  = Ok tt (logged [NewTray; TraySetContextMenu]
             (set_tray (Some (wiredTray defaultSettings (Some "Soluma Chat")))
                (boot emptyStore "linux" fullHD true))).
Proof.
  exact (proj1 (proj2 (createTray_ensures (boot emptyStore "linux" fullHD true) I))
           (or_introl eq_refl)).
Defined.

(** ** What leaves the store alone *)

Lemma final_bind {A B} (m : M A) (k : A -> M B) (w : World) :
  final (bind m k w)
  = match m w with
    | Ok a w' => final (k a w')
    | Throw _ w' => w'
    end.
Proof. unfold bind. destruct (m w); reflexivity. Qed.

Lemma keeps_bind {A B} (m : M A) (k : A -> M B) :
  keeps_store m -> (forall a, keeps_store (k a)) -> keeps_store (bind m k).
Proof.
  intros Hm Hk w. rewrite final_bind. specialize (Hm w).
  destruct (m w) as [a w'|e w']; cbn in Hm; [rewrite Hk|]; exact Hm.
Qed.

Lemma keeps_ret {A} (a : A) : keeps_store (ret a).
Proof. intros w. reflexivity. Qed.

Lemma keeps_get : keeps_store get.
Proof. intros w. reflexivity. Qed.

Lemma keeps_emit (e : Effect) : keeps_store (emit e).
Proof. intros w. reflexivity. Qed.

Lemma keeps_set_tray (t : option Tray) : keeps_store (modify (set_tray t)).
Proof. intros w. reflexivity. Qed.

Lemma keeps_when (c : bool) (m : M unit) : keeps_store m -> keeps_store (when c m).
Proof. destruct c; [trivial|intros _; apply keeps_ret]. Qed.

Lemma keeps_call {A} (k : WindowKind) (f : BrowserWindow -> A * BrowserWindow) :
  keeps_store (call k f).
Proof.
  intros w. unfold call. destruct (variable k w) as [b|]; [|reflexivity].
  destruct (destroyed b); [reflexivity|]. destruct (f b). destruct k; reflexivity.
Qed.

Lemma keeps_tray_call (f : Tray -> Tray) : keeps_store (tray_call f).
Proof.
  intros w. unfold tray_call. destruct (tray w) as [t|]; [|reflexivity].
  destruct (tray_destroyed t); reflexivity.
Qed.

Create HintDb keeps.
#[local] Hint Resolve keeps_ret keeps_get keeps_emit keeps_set_tray keeps_when
  keeps_call keeps_tray_call : keeps.

Ltac keeps :=
  repeat first
    [ apply keeps_bind; [|intros ?]
    | solve [auto with keeps] ].

Lemma keeps_createTray : keeps_store createTray.
Proof.
  unfold createTray. apply keeps_bind; [apply keeps_get|]. intros w.
  destruct (strict_eq _ _); [keeps|].
  destruct (tray w); keeps.
Qed.

Lemma keeps_getWindowPosition (overridePosition : option string) :
  keeps_store (getWindowPosition overridePosition).
Proof. unfold getWindowPosition, getBounds. keeps. Qed.

Lemma keeps_setPosition (k : WindowKind) (px py : Z) (animate : bool) :
  keeps_store (setPosition k px py animate).
Proof. unfold setPosition. keeps. Qed.

Lemma updateSetting_store (key value : string) (w : World) :
  store (final (updateSetting key value w))
  = {| serverHost := serverHost (store w); computerId := computerId (store w);
       settings := Some (<[key := value]> (default ∅ (settings (store w)))) |}.
Proof.
  rewrite updateSetting_steps.
  match goal with |- store (final (?m ?w1)) = _ =>
    assert (Hk : keeps_store m); [|rewrite Hk; reflexivity] end.
  apply keeps_bind; [apply keeps_createTray|]. intros _.
  apply keeps_bind; [apply keeps_get|]. intros w'.
  destruct (_ && _); [|apply keeps_ret].
  apply keeps_bind; [apply keeps_getWindowPosition|]. intros p.
  apply keeps_setPosition.
Qed.

(** C10. Whatever its outcome, [updateSetting key value] leaves every field
    of the stored settings record other than [key] as it was ([key] itself
    now holds [value]), and leaves [serverHost] and [computerId] as they
    were. *)
Theorem updateSetting_frame (key value : string) (w : World) :
  let after := store (final (updateSetting key value w)) in
  (forall k,
     default ∅ (settings after) !! k
     = if decide (k = key) then Some value
       else default ∅ (settings (store w)) !! k)
  /\ serverHost after = serverHost (store w)
  /\ computerId after = computerId (store w).
Proof.
  cbv zeta. rewrite updateSetting_store. cbn [settings serverHost computerId from_option id].
  repeat split. intros k. destruct (decide (k = key)) as [->|Hne].
  - apply lookup_insert_eq.
  - rewrite lookup_insert_ne; [reflexivity|congruence].
Qed.

(** ** [updateSetting] *)

Lemma js_or_same (value : string) : js_or (Some value) (Some value) = Some value.
Proof. cbn. now destruct (String.eqb value ""). Qed.

Lemma updateSetting_result (key value : string) (w : World) :
  tray_ok w -> companion_ok w ->
  let s' := <[key := value]> (default ∅ (settings (store w))) in
  updateSetting key value w
  = Ok tt (match companionWindow w with
           | Some b =>
               if String.eqb key "position" then
                 let p := resolve (namedPosition (Some value))
                            (sizeOf (bounds b)) (workAreaSize w) in
                 logged [SetPosition (Point.x p) (Point.y p) true]
                   (set_companionWindow (Some (movedTo p b)) (afterTray s' w))
               else afterTray s' w
           | None => afterTray s' w
           end).
Proof.
  intros Htray Hcomp s'. rewrite updateSetting_steps. fold s'.
  set (w1 := logged [StoreSet "settings"] (withSettings s' w)).
  assert (Hw2 : createTray w1 = Ok tt (afterTray s' w)).
  { rewrite (createTray_shape w1 Htray). f_equal.
    unfold afterTray, w1, logged, set_trace, set_tray, withSettings, set_store.
    destruct w; cbn. now rewrite <- app_assoc. }
  unfold bind at 1. rewrite Hw2. unfold bind at 1, get.
  change (nonNull Companion (afterTray s' w))
    with (match companionWindow w with Some _ => true | None => false end).
  unfold companion_ok in Hcomp.
  destruct (companionWindow w) as [b|] eqn:Hb;
    [|now rewrite andb_false_r].
  rewrite andb_true_r.
  destruct (String.eqb_spec key "position") as [Hkey|_]; [|reflexivity].
  assert (Hb2 : companionWindow (afterTray s' w) = Some b) by exact Hb.
  unfold bind. rewrite (getWindowPosition_live _ b (Some value) Hb2 Hcomp).
  assert (Hpos : configuredPosition (afterTray s' w) = Some value).
  { unfold configuredPosition. cbn [afterTray store logged set_trace set_tray
      withSettings set_store settings from_option id].
    unfold s'. rewrite Hkey. apply lookup_insert_eq. }
  rewrite Hpos, js_or_same.
  apply (setPosition_live _ b Hb2 Hcomp).
Qed.

(** The claim of C9 as it stands fails: a position change moves a hidden
    companion window at once, not on its next show. *)
Lemma updateSetting_moves_hidden_window :
  visible <$> companionWindow (session "top-center" fullHD) = Some false
  /\ bounds <$> companionWindow (session "top-center" fullHD)
     = Some {| rect_x := 0; rect_y := 0; rect_width := 400; rect_height := 600 |}
  /\ bounds <$> companionWindow
       (final (updateSetting "position" "bottom-right" (session "top-center" fullHD)))
     = Some {| rect_x := 1500; rect_y := 460; rect_width := 400; rect_height := 600 |}
  /\ trace (final (updateSetting "position" "bottom-right"
                     (session "top-center" fullHD)))
     = (trace (session "top-center" fullHD)
        ++ [StoreSet "settings"; TraySetContextMenu; SetPosition 1500 460 true])%list.
Proof. vm_compute. repeat split. Qed.

(** C9, amended. With the companion variable [null] or live,
    [updateSetting key value] stores the changed settings record, runs
    [createTray] on it (no icon when [trayVisibility] is "never", otherwise
    an icon whose menu is built from the record just stored), and moves the
    companion window to the position named [value] exactly when [key] is
    "position" and the companion window exists, visible or hidden; a later
    [showWindow] positions the window by the stored name again. *)
Theorem updateSetting_effects (key value : string) (w : World) :
  tray_ok w -> companion_ok w ->
  let s' := <[key := value]> (default ∅ (settings (store w))) in
  let moved b := movedTo (resolve (namedPosition (Some value))
                            (sizeOf (bounds b)) (workAreaSize w)) b in
  exists w',
    updateSetting key value w = Ok tt w'
    /\ settings (store w') = Some s'
    /\ tray w'
       = (if strict_eq (s' !! "trayVisibility") "never" then None
          else Some (wiredTray s' (match tray w with
                                   | Some t => toolTip t
                                   | None => Some "Soluma Chat"
                                   end)))
    /\ companionWindow w'
       = match companionWindow w with
         | Some b => Some (if String.eqb key "position" then moved b else b)
         | None => None
         end
    /\ trace w'
       = (trace w ++ [StoreSet "settings"] ++ trayEffects (withSettings s' w)
          ++ match companionWindow w with
             | Some b =>
                 if String.eqb key "position"
                 then [SetPosition (rect_x (bounds (moved b)))
                         (rect_y (bounds (moved b))) true]
                 else []
             | None => []
             end)%list
    /\ (forall w2 b2,
          key = "position" -> store w2 = store w' ->
          companionWindow w2 = Some b2 -> destroyed b2 = false ->
          let q := resolve (namedPosition (Some value))
                     (sizeOf (bounds b2)) (workAreaSize w2) in
          showWindow w2
          = Ok tt (logged [SetPosition (Point.x q) (Point.y q) false;
                           WindowShow Companion; WindowFocus Companion;
                           ExecuteJavaScript focusScript]
                     (set_companionWindow (Some (shownWindow (movedTo q b2))) w2))).
Proof.
  intros Htray Hcomp s' moved.
  pose proof (updateSetting_result key value w Htray Hcomp) as Hres.
  cbv zeta in Hres. fold s' in Hres.
  eexists. split; [exact Hres|].
  assert (Hstore : settings (store
            (match companionWindow w with
             | Some b =>
                 if String.eqb key "position" then
                   logged [SetPosition
                             (Point.x (resolve (namedPosition (Some value))
                                         (sizeOf (bounds b)) (workAreaSize w)))
                             (Point.y (resolve (namedPosition (Some value))
                                         (sizeOf (bounds b)) (workAreaSize w)))
                             true]
                     (set_companionWindow
                        (Some (movedTo (resolve (namedPosition (Some value))
                                          (sizeOf (bounds b)) (workAreaSize w)) b))
                        (afterTray s' w))
                 else afterTray s' w
             | None => afterTray s' w
             end)) = Some s').
  { destruct (companionWindow w); [destruct (String.eqb key "position")|];
      reflexivity. }
  split; [exact Hstore|]. split; [|split; [|split]].
  - destruct (companionWindow w); [destruct (String.eqb key "position")|];
      reflexivity.
  - destruct (companionWindow w) as [b|] eqn:Hb;
      [destruct (String.eqb key "position")|]; cbn; try rewrite Hb; reflexivity.
  - destruct (companionWindow w) as [b|] eqn:Hb;
      [destruct (String.eqb key "position")|];
      unfold afterTray, logged, set_trace; cbn;
      rewrite <- ?app_assoc, ?app_nil_r; reflexivity.
  - intros w2 b2 Hkey Hst Hb2 Hlive2 q.
    pose proof (showWindow_live w2 b2 Hb2 Hlive2) as Hshow. cbv zeta in Hshow.
    assert (Hpos : configuredPosition w2 = Some value).
    { unfold configuredPosition. rewrite Hst, Hstore. cbn [from_option id].
      unfold s'. rewrite Hkey. apply lookup_insert_eq. }
    rewrite Hpos in Hshow. exact Hshow.
Qed.

Lemma updateSetting_effects_witness :
  exists w',
    updateSetting "position" "bottom-right" (session "top-center" fullHD) = Ok tt w'
    /\ settings (store w')
       = Some (<["position" := "bottom-right"]> {[ "position" := "top-center" ]}).
Proof.
  destruct (updateSetting_effects "position" "bottom-right"
              (session "top-center" fullHD) eq_refl eq_refl)
    as (w' & Hrun & Hset & _).
  exists w'. split; assumption.
Defined.

(** ** The tray menu *)

Lemma createMainWindow_result (host : string) (w : World) :
  createMainWindow host w
  = Ok tt (logged (mainEffects (platform w) host)
             (set_mainWindow (Some (freshWindow 800 800 true (hostUrl host))) w)).
Proof.
  destruct w. unfold createMainWindow, updateDockVisibility, mainEffects.
  run_world.
  destruct (String.eqb platform0 "darwin") eqn:Hos; run_world; rewrite ?Hos;
    run_world; same_trace.
Qed.

Lemma createCompanionWindow_result (host : string) (w : World) :
  createCompanionWindow host w
  = Ok tt (logged (companionEffects host)
             (set_companionWindow
                (Some (freshWindow 400 600 false (hostUrl host))) w)).
Proof.
  destruct w. unfold createCompanionWindow, companionEffects.
  run_world. same_trace.
Qed.

(** The claim of C8 as it stands fails: the position submenu has three
    entries, and [top-center] is not among the values they select. *)
Lemma position_menu_has_three_names :
  map radioValue (radioGroup "Companion Position" (trayTemplate defaultSettings))
  = [Some ("position", "bottom-center"); Some ("position", "bottom-left");
     Some ("position", "bottom-right")]
  /\ ~ (forall name,
          In name (map fst positionNames) ->
          In (Some ("position", name))
            (map radioValue
               (radioGroup "Companion Position" (trayTemplate defaultSettings)))).
Proof.
  split; [reflexivity|].
  intros H. specialize (H "top-center" (or_introl eq_refl)). cbn in H.
  repeat (destruct H as [H|H]; [discriminate H|]). exact H.
Qed.

(** C8, amended. The tray menu has an entry that opens the main window
    (showing and focusing a live one, creating one when none is live and a
    host is stored), an entry that runs [toggleWindow], a position radio
    group over the three names bottom-center, bottom-left and bottom-right
    whose entries store the position and move an existing companion window
    at once, a visibility radio group over always, running and never whose
    "never" entry leaves no tray icon, and a quit entry. *)
Theorem trayTemplate_offers (s : gmap string string) (w : World) :
  tray_ok w -> companion_ok w ->
  (exists positions visibilities,
     trayTemplate s
     = [ Item "Open Soluma Chat" None ClickOpenSolumaChat;
         Item "Open Companion" (Some "Option+Space") ClickToggleWindow;
         Separator; Submenu "Companion Position" positions;
         Separator; Submenu "Show in Menu Bar" visibilities;
         Separator; Role "Quit" "quit" ]
     /\ map radioValue positions
        = [Some ("position", "bottom-center"); Some ("position", "bottom-left");
           Some ("position", "bottom-right")]
     /\ map radioValue visibilities
        = [Some ("trayVisibility", "always"); Some ("trayVisibility", "running");
           Some ("trayVisibility", "never")])
  /\ runClick ClickOpenSolumaChat w
     = Ok tt (let created :=
                if truthy (serverHost (store w)) then
                  logged (mainEffects (platform w) (default "" (serverHost (store w))))
                    (set_mainWindow
                       (Some (freshWindow 800 800 true
                                (hostUrl (default "" (serverHost (store w)))))) w)
                else w in
              match mainWindow w with
              | Some m =>
                  if destroyed m then created
                  else logged [WindowShow Main; WindowFocus Main]
                         (set_mainWindow (Some (shownWindow m)) w)
              | None => created
              end)
  /\ runClick ClickToggleWindow w = toggleWindow w
  /\ (forall value,
        let s' := <["position" := value]> (default ∅ (settings (store w))) in
        exists w',
          runClick (ClickUpdateSetting "position" value) w = Ok tt w'
          /\ settings (store w') = Some s'
          /\ companionWindow w'
             = match companionWindow w with
               | Some b =>
                   Some (movedTo (resolve (namedPosition (Some value))
                                    (sizeOf (bounds b)) (workAreaSize w)) b)
               | None => None
               end)
  /\ (exists w',
        runClick (ClickUpdateSetting "trayVisibility" "never") w = Ok tt w'
        /\ tray w' = None
        /\ trace w'
           = (trace w ++ [StoreSet "settings"]
              ++ (if tray_alive w then [TrayDestroy] else []))%list).
Proof.
  intros Htray Hcomp. split; [|split; [|split; [|split]]].
  - eexists _, _. split; [reflexivity|]. split; reflexivity.
  - unfold runClick, bind at 1, get, alive, variable. cbv zeta.
    destruct (mainWindow w) as [m|] eqn:Hm; cbn [negb].
    + destruct (destroyed m) eqn:Hd; cbn [negb].
      * destruct (truthy (serverHost (store w))); cbn [when];
          [apply createMainWindow_result|reflexivity].
      * unfold show, focus, bind, call, variable, emit, modify.
        rewrite Hm, Hd. cbn. rewrite ?Hd. unfold shownWindow.
        destruct w; cbn. unfold logged, set_trace; cbn.
        rewrite ?Hd, <- ?app_assoc. reflexivity.
    + destruct (truthy (serverHost (store w))); cbn [when];
        [apply createMainWindow_result|reflexivity].
  - reflexivity.
  - intros value s'. cbn [runClick].
    rewrite (updateSetting_result "position" value w Htray Hcomp).
    fold s'. eexists. split; [reflexivity|].
    destruct (companionWindow w) as [b|] eqn:Hb; cbn; [|rewrite Hb];
      split; reflexivity.
  - cbn [runClick].
    rewrite (updateSetting_result "trayVisibility" "never" w Htray Hcomp).
    set (s' := <["trayVisibility" := "never"]> (default ∅ (settings (store w)))).
    assert (Hnever : strict_eq (traySettings (withSettings s' w) !! "trayVisibility")
                       "never" = true).
    { apply strict_eq_true. apply lookup_insert_eq. }
    exists (afterTray s' w). split; [|split].
    + destruct (companionWindow w); reflexivity.
    + cbn. unfold trayAfter. now rewrite Hnever.
    + cbn. unfold trayEffects. rewrite Hnever. reflexivity.
Qed.

Lemma trayTemplate_offers_witness :
  exists w',
    runClick (ClickUpdateSetting "trayVisibility" "never")
      (session "top-center" fullHD) = Ok tt w'
    /\ tray w' = None
    /\ trace w'
       = (trace (session "top-center" fullHD)
          ++ [StoreSet "settings"; TrayDestroy])%list.
Proof.
  exact (proj2 (proj2 (proj2 (proj2
           (trayTemplate_offers ∅ (session "top-center" fullHD)
              eq_refl eq_refl))))).
Defined.

(** ** Startup and login *)

Lemma bind_Ok {A B} (m : M A) (k : A -> M B) (w w' : World) (a : A) :
  m w = Ok a w' -> bind m k w = k a w'.
Proof. unfold bind. now intros ->. Qed.

Lemma updateDockVisibility_result (w : World) :
  updateDockVisibility w = Ok tt (docked w).
Proof.
  unfold updateDockVisibility, docked, bind, get.
  destruct (String.eqb (platform w) "darwin"); [|reflexivity].
  destruct (mainWindow w) as [b|]; [|reflexivity].
  destruct (negb (destroyed b) && visible b); reflexivity.
Qed.

Lemma createLoginWindow_result (w : World) :
  createLoginWindow w
  = Ok tt (logged [NewBrowserWindow Login true;
                   ConsoleLog "Loading login page from:"; LoadFile Login "login.html"]
             (set_loginWindow (Some (freshWindow 600 800 true "login.html")) w)).
Proof.
  destruct w. unfold createLoginWindow. run_world. same_trace.
Qed.

Lemma initialize_result (w : World) : initialize w = Ok tt (initialized w).
Proof.
  unfold initialize, initialized, bind at 1, get. cbv zeta.
  rewrite (bind_Ok _ _ w (logged [ConsoleLog "Saved host:"] w) tt) by reflexivity.
  destruct (truthy (serverHost (store w))).
  - erewrite bind_Ok by apply createCompanionWindow_result.
    rewrite createMainWindow_result.
    destruct w; run_world; same_trace.
  - rewrite createLoginWindow_result.
    destruct w; run_world; same_trace.
Qed.

Lemma whenReady_result (w : World) :
  tray_ok w -> whenReady w = Ok tt (started w).
Proof.
  intros Hok. unfold whenReady, started.
  rewrite (bind_Ok _ _ w (logged [ConsoleLog "App is ready"] w) tt) by reflexivity.
  erewrite bind_Ok by apply updateDockVisibility_result.
  erewrite bind_Ok by apply initialize_result.
  set (w3 := initialized _).
  assert (Hok3 : tray_ok w3).
  { unfold tray_ok, w3, initialized, docked in *.
    destruct (truthy _); destruct (String.eqb _ _); exact Hok. }
  rewrite (bind_Ok _ _ w3 (trayed w3) tt) by apply (createTray_shape w3 Hok3).
  unfold bind, get, emit, modify, when, registered.
  destruct (trayed w3) as [? ? ? ? ? ? ? free ? ?]; cbn.
  destruct free; cbn; unfold logged, set_trace, set_hotkeyRegistered; cbn;
    rewrite <- ?app_assoc; reflexivity.
Qed.

Lemma submitContinuation_result (host : string) (response : Z) (w : World) :
  submitContinuation host response w
  = Ok tt (if Z.eqb response 0 then persistAndCreate host w else cancelled w).
Proof.
  unfold submitContinuation. destruct (Z.eqb response 0).
  2: { destruct w; unfold cancelled; run_world; same_trace. }
  rewrite (bind_Ok _ _ w (logged [StoreSet "serverHost"] (withHost host w)) tt)
    by reflexivity.
  erewrite bind_Ok by apply createMainWindow_result.
  rewrite createCompanionWindow_result.
  destruct w; unfold persistAndCreate; run_world; same_trace.
Qed.

(** C6. A host beginning with "http://" makes the handler show the warning
    and stop: nothing is stored or created until the answer.  On "Cancel"
    the store and the windows stay as they are and [clear-server-host-input]
    is sent back; on "Continue", and at once for any other host, the host is
    stored and the Main and the Companion window are created. *)
Theorem submitServerHost_flow (host : string) (w : World) :
  (if String.prefix "http://" host then
     exists callback,
       submitServerHost host w
       = AwaitMessageBox
           (logged [ConsoleLog "Saving server host:";
                    ShowMessageBox "Security Warning"] w) callback
       /\ forall response w2,
            callback response w2
            = Ok tt (if Z.eqb response 0 then persistAndCreate host w2
                     else cancelled w2)
   else
     submitServerHost host w
     = Finished (Ok tt (persistAndCreate host
                          (logged [ConsoleLog "Saving server host:"] w))))
  /\ (forall w2,
        store (cancelled w2) = store w2
        /\ mainWindow (cancelled w2) = mainWindow w2
        /\ companionWindow (cancelled w2) = companionWindow w2
        /\ trace (cancelled w2)
           = (trace w2 ++ [ConsoleLog "User cancelled due to security warning.";
                           IpcSend "clear-server-host-input"])%list)
  /\ (forall w2,
        serverHost (store (persistAndCreate host w2)) = Some host
        /\ mainWindow (persistAndCreate host w2)
           = Some (freshWindow 800 800 true (hostUrl host))
        /\ companionWindow (persistAndCreate host w2)
           = Some (freshWindow 400 600 false (hostUrl host))).
Proof.
  split; [|split; intros w2; repeat split].
  unfold submitServerHost. cbn [emit modify].
  destruct (String.prefix "http://" host).
  - eexists. split.
    + f_equal. destruct w; run_world; same_trace.
    + apply submitContinuation_result.
  - f_equal. apply (submitContinuation_result host 0).
Qed.

Lemma truthy_Some (host : string) : host <> "" -> truthy (Some host) = true.
Proof. intros H. cbn. now destruct (String.eqb_spec host ""). Qed.

Lemma submitAndAnswer_continue (host : string) (w : World) :
  submitAndAnswer host 0 w
  = Ok tt (persistAndCreate host
             (logged (ConsoleLog "Saving server host:"
                      :: (if String.prefix "http://" host
                          then [ShowMessageBox "Security Warning"] else [])) w)).
Proof.
  unfold submitAndAnswer, submitServerHost. cbn [emit modify].
  destruct (String.prefix "http://" host).
  - rewrite (submitContinuation_result host 0). cbn [Z.eqb]. do 2 f_equal.
    destruct w; run_world; same_trace.
  - apply (submitContinuation_result host 0).
Qed.

(** The claim of C5 as it stands fails: startup creates Companion, then
    Main; a login submission creates Main, then Companion. *)
Lemma login_creates_main_first :
  windowCreations
    (trace (final (whenReady
                     (boot (hostStore "chat.example.com" None) "linux" fullHD true))))
  = [Companion; Main]
  /\ windowCreations
       (trace (final (submitAndAnswer "chat.example.com" 0
                        (boot emptyStore "linux" fullHD true))))
     = [Main; Companion].
Proof. vm_compute. split; reflexivity. Qed.

(** C5, amended. Started with a stored host, the process creates the
    Companion window (hidden), then the Main window (visible), installs the
    application menu for the host, runs [createTray], and then registers the
    accelerator.  An accepted login submission stores the host and creates
    the same two windows in the other order: Main with its menu first,
    Companion second. *)
Theorem startup_sequence (st : Store) (host os : string) (area : Size) (free : bool) :
  serverHost st = Some host -> host <> "" ->
  exists w',
    whenReady (boot st os area free) = Ok tt w'
    /\ milestones (trace w')
       = ([NewBrowserWindow Companion false; NewBrowserWindow Main true;
           SetApplicationMenu host]
          ++ (if strict_eq (default defaultSettings (settings st) !! "trayVisibility")
                   "never"
              then [] else [NewTray])
          ++ [RegisterShortcut "Option+Space" free])%list
    /\ companionWindow w' = Some (freshWindow 400 600 false (hostUrl host))
    /\ mainWindow w' = Some (freshWindow 800 800 true (hostUrl host))
    /\ (forall w,
          exists es w2,
            submitAndAnswer host 0 w = Ok tt w2
            /\ trace w2 = (trace w ++ es)%list
            /\ milestones es
               = [NewBrowserWindow Main true; SetApplicationMenu host;
                  NewBrowserWindow Companion false]
            /\ serverHost (store w2) = Some host).
Proof.
  intros Hhost Hne. exists (started (boot st os area free)).
  split; [apply whenReady_result; exact I|].
  pose proof (truthy_Some host Hne) as Htruthy.
  assert (Hinit : initialized (docked (logged [ConsoleLog "App is ready"]
                                         (boot st os area free)))
                  = logged ([ConsoleLog "Saved host:"] ++ companionEffects host
                            ++ mainEffects os host)
                      (set_mainWindow (Some (freshWindow 800 800 true (hostUrl host)))
                         (set_companionWindow
                            (Some (freshWindow 400 600 false (hostUrl host)))
                            (docked (logged [ConsoleLog "App is ready"]
                                       (boot st os area free)))))).
  { unfold initialized, docked. cbn [platform boot logged set_trace].
    destruct (String.eqb os "darwin"); cbn [store boot logged set_trace platform];
      rewrite Hhost, Htruthy; reflexivity. }
  unfold started. rewrite Hinit. clear Hinit.
  split; [|split; [|split]].
  - unfold registered, trayed, trayEffects, traySettings, tray_alive, docked,
      mainEffects, companionEffects.
    cbn [platform boot logged set_trace].
    destruct (String.eqb os "darwin");
      cbn [platform boot logged set_trace set_mainWindow set_companionWindow
           set_tray set_hotkeyRegistered trace store tray shortcutFree mainWindow];
      destruct (strict_eq _ "never"); destruct free; reflexivity.
  - unfold docked. cbn [platform boot logged set_trace].
    destruct (String.eqb os "darwin"); reflexivity.
  - unfold docked. cbn [platform boot logged set_trace].
    destruct (String.eqb os "darwin"); reflexivity.
  - intros w. rewrite submitAndAnswer_continue.
    eexists (_ ++ [StoreSet "serverHost"] ++ mainEffects (platform w) host
             ++ companionEffects host)%list, _.
    split; [reflexivity|]. split; [|split; [|reflexivity]].
    + unfold persistAndCreate, logged, set_trace, set_companionWindow,
        set_mainWindow, withHost, set_store. cbn [trace platform].
      now rewrite <- app_assoc.
    + unfold mainEffects, companionEffects.
      destruct (String.prefix "http://" host);
        destruct (String.eqb (platform w) "darwin"); reflexivity.
Qed.

Lemma startup_sequence_witness :
  exists w',
    whenReady (boot (hostStore "chat.example.com" None) "linux" fullHD true) = Ok tt w'
    /\ milestones (trace w')
       = [NewBrowserWindow Companion false; NewBrowserWindow Main true;
          SetApplicationMenu "chat.example.com"; NewTray;
          RegisterShortcut "Option+Space" true].
Proof.
  destruct (startup_sequence (hostStore "chat.example.com" None)
              "chat.example.com" "linux" fullHD true eq_refl
              ltac:(discriminate)) as (w' & Hrun & Hmile & _).
  exists w'. split; [exact Hrun|exact Hmile].
Defined.

(** ** The two triggers of [toggleWindow] *)

Lemma toggleWindow_dead (w : World) :
  alive Companion w = false ->
  toggleWindow w
  = Throw (match companionWindow w with
           | Some _ => ObjectDestroyed
           | None => TypeErrorNull
           end) w.
Proof.
  unfold alive, toggleWindow, bind, isVisible, call, variable.
  destruct (companionWindow w) as [b|]; [|reflexivity].
  destruct (destroyed b); [reflexivity|discriminate].
Qed.

Lemma hotkeyPressed_dead (w : World) :
  alive Companion w = false ->
  hotkeyPressed w = Ok tt (logged [ConsoleLog "Option+Space is pressed"] w).
Proof.
  intros Hdead. unfold hotkeyPressed.
  rewrite (bind_Ok _ _ w (logged [ConsoleLog "Option+Space is pressed"] w) tt)
    by reflexivity.
  unfold bind, get.
  change (alive Companion (logged [ConsoleLog "Option+Space is pressed"] w))
    with (alive Companion w).
  now rewrite Hdead.
Qed.

(** C2, as the code has it: the liveness test guards the hotkey callback
    only.  With no live companion window the hotkey logs a line and does
    nothing else, while a left click on the tray icon, and the menu entry
    "Open Companion", run [toggleWindow] unguarded and throw. *)
Theorem trayClick_unguarded (w : World) (t : Tray) :
  tray w = Some t -> tray_destroyed t = false ->
  on_click t = [ListenToggleWindow] ->
  alive Companion w = false ->
  let fault := match companionWindow w with
               | Some _ => ObjectDestroyed
               | None => TypeErrorNull
               end in
  trayClick w = Throw fault w
  /\ runClick ClickToggleWindow w = Throw fault w
  /\ hotkeyPressed w = Ok tt (logged [ConsoleLog "Option+Space is pressed"] w).
Proof.
  intros Ht Hlive Hclick Hdead fault. split; [|split].
  - unfold trayClick, bind at 1, get. rewrite Ht, Hlive, Hclick.
    cbn [runListeners runListener]. unfold bind.
    now rewrite (toggleWindow_dead w Hdead).
  - apply (toggleWindow_dead w Hdead).
  - apply (hotkeyPressed_dead w Hdead).
Qed.

(** First launch: nothing stored, so the login window and the tray icon
    exist and the companion window does not. *)
Lemma trayClick_unguarded_witness :
  whenReady (boot emptyStore "linux" fullHD true)
  = Ok tt (started (boot emptyStore "linux" fullHD true))
  /\ trayClick (started (boot emptyStore "linux" fullHD true))
     = Throw TypeErrorNull (started (boot emptyStore "linux" fullHD true))
  /\ hotkeyPressed (started (boot emptyStore "linux" fullHD true))
     = Ok tt (logged [ConsoleLog "Option+Space is pressed"]
                (started (boot emptyStore "linux" fullHD true))).
Proof.
  split; [exact (whenReady_result (boot emptyStore "linux" fullHD true) I)|].
  pose proof (trayClick_unguarded (started (boot emptyStore "linux" fullHD true))
                (wiredTray defaultSettings (Some "Soluma Chat"))
                eq_refl eq_refl eq_refl eq_refl) as (Hclick & _ & Hkey).
  split; [exact Hclick|exact Hkey].
Defined.

(** ** Frames: what a computation leaves alone *)

Lemma frames_ret {X A} (f : World -> X) (a : A) : frames f (ret a).
Proof. intros w. reflexivity. Qed.

Lemma frames_get {X} (f : World -> X) : frames f get.
Proof. intros w. reflexivity. Qed.

Lemma frames_bind {X A B} (f : World -> X) (m : M A) (k : A -> M B) :
  frames f m -> (forall a, frames f (k a)) -> frames f (bind m k).
Proof.
  intros Hm Hk w. rewrite final_bind. specialize (Hm w).
  destruct (m w) as [a w'|e w']; cbn in Hm; [rewrite Hk|]; exact Hm.
Qed.

Lemma frames_when {X} (f : World -> X) (c : bool) (m : M unit) :
  frames f m -> frames f (when c m).
Proof. destruct c; [trivial|intros _; apply frames_ret]. Qed.

Section WindowFrame.
Context {X : Type} (f : World -> X).
Hypothesis f_trace : forall t w, f (set_trace t w) = f w.
Hypothesis f_window : forall k b w, f (assign k b w) = f w.

Lemma frames_emit (e : Effect) : frames f (emit e).
Proof. intros w. apply f_trace. Qed.

Lemma frames_assign (k : WindowKind) (b : option BrowserWindow) :
  frames f (modify (assign k b)).
Proof. intros w. apply f_window. Qed.

Lemma frames_call {A} (k : WindowKind) (g : BrowserWindow -> A * BrowserWindow) :
  frames f (call k g).
Proof.
  intros w. unfold call. destruct (variable k w) as [b|]; [|reflexivity].
  destruct (destroyed b); [reflexivity|]. destruct (g b). apply f_window.
Qed.

Lemma frames_getBounds (k : WindowKind) : frames f (getBounds k).
Proof. apply frames_call. Qed.

Lemma frames_isVisible (k : WindowKind) : frames f (isVisible k).
Proof. apply frames_call. Qed.

Lemma frames_isFocused (k : WindowKind) : frames f (isFocused k).
Proof. apply frames_call. Qed.

Create HintDb frames.
#[local] Hint Resolve frames_ret frames_get frames_emit frames_assign frames_call
  frames_getBounds frames_isVisible frames_isFocused : frames.

Ltac frames :=
  repeat first
    [ solve [auto with frames]
    | apply frames_bind; [|intros ?]
    | apply frames_when
    | match goal with
      | |- frames _ (if ?c then _ else _) => destruct c
      | |- frames _ (match ?x with _ => _ end) => destruct x
      end ].

Lemma frames_hide (k : WindowKind) : frames f (hide k).
Proof. unfold hide. frames. Qed.

Lemma frames_show (k : WindowKind) : frames f (show k).
Proof. unfold show. frames. Qed.

Lemma frames_focus (k : WindowKind) : frames f (focus k).
Proof. unfold focus. frames. Qed.

Lemma frames_close (k : WindowKind) : frames f (close k).
Proof. unfold close. frames. Qed.

Lemma frames_getWindowPosition (overridePosition : option string) :
  frames f (getWindowPosition overridePosition).
Proof. unfold getWindowPosition. frames. Qed.

Lemma frames_setPosition (k : WindowKind) (px py : Z) (animate : bool) :
  frames f (setPosition k px py animate).
Proof. unfold setPosition. frames. Qed.

#[local] Hint Resolve frames_hide frames_show frames_focus frames_close
  frames_getWindowPosition frames_setPosition : frames.

Lemma frames_showWindow : frames f showWindow.
Proof. unfold showWindow, executeJavaScript. frames. Qed.

#[local] Hint Resolve frames_showWindow : frames.

Lemma frames_toggleWindow : frames f toggleWindow.
Proof. unfold toggleWindow. frames. Qed.

Lemma frames_updateDockVisibility : frames f updateDockVisibility.
Proof. unfold updateDockVisibility. frames. Qed.

#[local] Hint Resolve frames_toggleWindow frames_updateDockVisibility : frames.

Lemma frames_createLoginWindow : frames f createLoginWindow.
Proof.
  unfold createLoginWindow, newBrowserWindow, loadFile. frames.
Qed.

Lemma frames_createMainWindow (host : string) : frames f (createMainWindow host).
Proof.
  unfold createMainWindow, newBrowserWindow, loadURL, buildMenu. frames.
Qed.

Lemma frames_createCompanionWindow (host : string) :
  frames f (createCompanionWindow host).
Proof.
  unfold createCompanionWindow, newBrowserWindow, loadURL. frames.
Qed.

#[local] Hint Resolve frames_createLoginWindow frames_createMainWindow
  frames_createCompanionWindow : frames.

Lemma frames_initialize : frames f initialize.
Proof. unfold initialize. frames. Qed.

Lemma frames_hotkeyPressed : frames f hotkeyPressed.
Proof. unfold hotkeyPressed. frames. Qed.

Lemma frames_hideCompanion : frames f hideCompanion.
Proof. unfold hideCompanion. frames. Qed.

Lemma frames_runListeners (ls : list Listener) : frames f (runListeners ls).
Proof.
  induction ls as [|l ls IH]; cbn [runListeners]; [apply frames_ret|].
  apply frames_bind; [|intros _; exact IH].
  destruct l; cbn [runListener]; auto with frames.
Qed.

#[local] Hint Resolve frames_runListeners frames_initialize : frames.

Lemma frames_trayClick : frames f trayClick.
Proof. unfold trayClick. frames. Qed.

Lemma frames_trayRightClick : frames f trayRightClick.
Proof. unfold trayRightClick. frames. Qed.

Lemma frames_openSolumaChat : frames f (runClick ClickOpenSolumaChat).
Proof. cbn [runClick]. frames. Qed.

Lemma frames_windowClosed (k : WindowKind) : frames f (windowClosed k).
Proof. unfold windowClosed. frames. Qed.

Lemma frames_activate (n : nat) : frames f (activate n).
Proof. unfold activate. frames. Qed.

Lemma frames_companionBlurred : frames f companionBlurred.
Proof.
  intros w. unfold companionBlurred, modify. cbn [final].
  destruct (companionWindow w); [apply (f_window Companion)|reflexivity].
Qed.

Lemma frames_companionReshaped (r : Rectangle) : frames f (companionReshaped r).
Proof.
  intros w. unfold companionReshaped, modify. cbn [final].
  destruct (companionWindow w); [apply (f_window Companion)|reflexivity].
Qed.

End WindowFrame.

Lemma background_trace (t : list Effect) (w : World) :
  background (set_trace t w) = background w.
Proof. reflexivity. Qed.

Lemma background_window (k : WindowKind) (b : option BrowserWindow) (w : World) :
  background (assign k b w) = background w.
Proof. destruct k; reflexivity. Qed.

Lemma tray_view_trace (t : list Effect) (w : World) :
  tray_view (set_trace t w) = tray_view w.
Proof. reflexivity. Qed.

Lemma tray_view_window (k : WindowKind) (b : option BrowserWindow) (w : World) :
  tray_view (assign k b w) = tray_view w.
Proof. destruct k; reflexivity. Qed.

(** ** The companion window under any sequence of triggers *)

Lemma toggleWindow_live (w : World) (b : BrowserWindow) :
  companionWindow w = Some b -> destroyed b = false ->
  toggleWindow w
  = Ok tt (logged (toggleEffects (shownAt w b) b)
             (set_companionWindow (Some (toggledWindow (shownAt w b) b)) w)).
Proof.
  intros Hb Hlive. unfold toggleEffects, toggledWindow.
  destruct (visible b) eqn:Hvis.
  - destruct (focused b) eqn:Hfoc.
    + rewrite (toggleWindow_focused w b Hb Hlive Hvis Hfoc).
      apply (hide_live w b Hb Hlive).
    + unfold toggleWindow, bind.
      rewrite (isVisible_live w b Hb Hlive), Hvis.
      rewrite (isFocused_live w b Hb Hlive), Hfoc.
      rewrite (focus_live w b Hb Hlive), Hvis. reflexivity.
  - rewrite (toggleWindow_hidden w b Hb Hlive Hvis).
    apply (showWindow_live w b Hb Hlive).
Qed.

(** X1. The hotkey callback returns in every state: it logs its line, and
    toggles the companion window exactly when the variable holds a live
    window. *)
Theorem hotkeyPressed_total (w : World) :
  hotkeyPressed w
  = Ok tt (match companionWindow w with
           | Some b =>
               if destroyed b then logged [ConsoleLog "Option+Space is pressed"] w
               else
                 logged (ConsoleLog "Option+Space is pressed"
                         :: toggleEffects (shownAt w b) b)
                   (set_companionWindow (Some (toggledWindow (shownAt w b) b)) w)
           | None => logged [ConsoleLog "Option+Space is pressed"] w
           end).
Proof.
  destruct (companionWindow w) as [b|] eqn:Hb.
  - destruct (destroyed b) eqn:Hlive.
    + apply hotkeyPressed_dead. unfold alive, variable. now rewrite Hb, Hlive.
    + unfold hotkeyPressed.
      rewrite (bind_Ok _ _ w (logged [ConsoleLog "Option+Space is pressed"] w) tt)
        by reflexivity.
      unfold bind at 1, get.
      change (alive Companion (logged [ConsoleLog "Option+Space is pressed"] w))
        with (alive Companion w).
      unfold alive, variable. rewrite Hb, Hlive. cbn [negb when].
      rewrite (toggleWindow_live
                 (logged [ConsoleLog "Option+Space is pressed"] w) b Hb Hlive).
      change (shownAt (logged [ConsoleLog "Option+Space is pressed"] w) b)
        with (shownAt w b).
      generalize (toggleEffects (shownAt w b) b) (toggledWindow (shownAt w b) b).
      intros es b'. destruct w; run_world; same_trace.
  - apply hotkeyPressed_dead. unfold alive, variable. now rewrite Hb.
Qed.

(** X2. The "hide-companion" message never throws: a live companion window
    ends hidden and unfocused with everything else as it was, and with no
    live window nothing changes at all. *)
Theorem hideCompanion_total (w : World) :
  hideCompanion w
  = Ok tt (match companionWindow w with
           | Some b =>
               if destroyed b then w
               else logged [WindowHide Companion]
                      (set_companionWindow (Some (hiddenWindow b)) w)
           | None => w
           end).
Proof.
  unfold hideCompanion, bind, get, alive, variable.
  destruct (companionWindow w) as [b|] eqn:Hb; [|reflexivity].
  destruct (destroyed b) eqn:Hlive; cbn [negb when]; [reflexivity|].
  apply (hide_live w b Hb Hlive).
Qed.

(** X3. Whatever the visibility and focus of a live companion window before
    the call, after [toggleWindow] it is either visible and focused or
    neither; it is still live, has its size and its page, and the store,
    the tray, the main and the login window are untouched. *)
Theorem toggleWindow_consistent (w : World) (b : BrowserWindow) :
  companionWindow w = Some b -> destroyed b = false ->
  exists w' b',
    toggleWindow w = Ok tt w'
    /\ companionWindow w' = Some b'
    /\ visible b' = focused b'
    /\ destroyed b' = false
    /\ sizeOf (bounds b') = sizeOf (bounds b)
    /\ url b' = url b
    /\ background w' = background w
    /\ mainWindow w' = mainWindow w
    /\ loginWindow w' = loginWindow w.
Proof.
  intros Hb Hlive. eexists _, _.
  split; [apply (toggleWindow_live w b Hb Hlive)|].
  split; [reflexivity|]. unfold toggledWindow.
  destruct (visible b), (focused b); cbn; rewrite ?Hlive; repeat split.
Qed.

Lemma toggleWindow_consistent_witness :
  exists w' b',
    toggleWindow (session "top-center" fullHD) = Ok tt w'
    /\ companionWindow w' = Some b'
    /\ visible b' = focused b'.
Proof.
  destruct (toggleWindow_consistent (session "top-center" fullHD)
              (companion400x600 false false) eq_refl eq_refl)
    as (w' & b' & Hrun & Hb' & Hvis & _).
  exists w', b'. repeat split; assumption.
Defined.

(** X4. [showWindow] places the window from its size, the work area and the
    stored position only: wherever the window was dragged before, it is
    shown at the same point. *)
Theorem showWindow_forgets_position (w : World) (b : BrowserWindow) (q : Point.t) :
  companionWindow w = Some b -> destroyed b = false ->
  showWindow (set_companionWindow (Some (movedTo q b)) w)
  = Ok tt (logged [SetPosition (Point.x (shownAt w b)) (Point.y (shownAt w b)) false;
                   WindowShow Companion; WindowFocus Companion;
                   ExecuteJavaScript focusScript]
             (set_companionWindow (Some (shownWindow (movedTo (shownAt w b) b))) w))
  /\ companionWindow (final (showWindow (set_companionWindow (Some (movedTo q b)) w)))
     = companionWindow (final (showWindow w)).
Proof.
  intros Hb Hlive.
  assert (Hmoved : showWindow (set_companionWindow (Some (movedTo q b)) w)
                   = Ok tt (logged [SetPosition (Point.x (shownAt w b))
                                      (Point.y (shownAt w b)) false;
                                    WindowShow Companion; WindowFocus Companion;
                                    ExecuteJavaScript focusScript]
                              (set_companionWindow
                                 (Some (shownWindow (movedTo (shownAt w b) b))) w))).
  { rewrite (showWindow_live (set_companionWindow (Some (movedTo q b)) w)
               (movedTo q b) eq_refl Hlive).
    destruct w; reflexivity. }
  split; [exact Hmoved|].
  rewrite Hmoved, (showWindow_live w b Hb Hlive). reflexivity.
Qed.

Lemma showWindow_forgets_position_witness :
  companionWindow
    (final (showWindow
              (set_companionWindow
                 (Some (movedTo {| Point.x := 7; Point.y := 9 |}
                          (companion400x600 false false)))
                 (session "bottom-right" fullHD))))
  = companionWindow (final (showWindow (session "bottom-right" fullHD))).
Proof.
  exact (proj2 (showWindow_forgets_position (session "bottom-right" fullHD)
                  (companion400x600 false false) {| Point.x := 7; Point.y := 9 |}
                  eq_refl eq_refl)).
Defined.

(** X5. The point [getWindowPosition] returns keeps the margins its name
    promises, for every size of window and work area: the bottom positions
    leave 20 pixels below the window, the right positions 20 pixels to its
    right, [bottom-left] 20 to its left; the centred coordinates split the
    free space evenly, the odd pixel going before the window; the top
    positions start within half a pixel of a tenth of the height. *)
Theorem getWindowPosition_margins (w : World) (b : BrowserWindow)
    (overridePosition : option string) :
  companionWindow w = Some b -> destroyed b = false ->
  exists p,
    getWindowPosition overridePosition w = Ok p w
    /\ margins (namedPosition (js_or overridePosition (configuredPosition w)))
         p (sizeOf (bounds b)) (workAreaSize w).
Proof.
  intros Hb Hlive. eexists.
  split; [apply (getWindowPosition_live w b overridePosition Hb Hlive)|].
  pose proof (centered_nearest (width (workAreaSize w)) (rect_width (bounds b))).
  pose proof (centered_nearest (height (workAreaSize w)) (rect_height (bounds b))).
  pose proof (tenth_nearest (height (workAreaSize w))).
  unfold margins, centred_within, gap_after, tenth_before, resolve, sizeOf.
  destruct (namedPosition _); cbn [Point.x Point.y width height]; lia.
Qed.

Lemma getWindowPosition_margins_witness :
  exists p,
    getWindowPosition None (session "center" {| width := 1367; height := 768 |})
    = Ok p (session "center" {| width := 1367; height := 768 |})
    /\ margins Center p {| width := 400; height := 600 |}
         {| width := 1367; height := 768 |}.
Proof.
  exact (getWindowPosition_margins
           (session "center" {| width := 1367; height := 768 |})
           (companion400x600 false false) None eq_refl eq_refl).
Defined.

(** ** What the events leave alone *)

(** X6. No event that acts on windows only - the hotkey, a click on the
    tray icon, the entries that open the main or the companion window, the
    "hide-companion" message, a re-activation, a window closing, losing
    focus or being dragged - changes the persisted store, the tray icon or
    the hotkey registration, whether its callback returns or throws. *)
Theorem window_events_keep_background (e : Event) (w : World) :
  windowEvent e = true ->
  background (dispatch (handler e) w) = background w.
Proof.
  intros He.
  assert (Hframe : frames background (handler e)).
  { destruct e as [ | | |c| | | | | | | | | | | | ]; try discriminate He;
      cbn [handler].
    - apply (frames_hotkeyPressed _ background_trace background_window).
    - apply (frames_trayClick _ background_trace background_window).
    - apply (frames_trayRightClick _ background_trace background_window).
    - destruct c; try discriminate He.
      + apply (frames_openSolumaChat _ background_trace background_window).
      + apply (frames_toggleWindow _ background_trace background_window).
    - apply (frames_hideCompanion _ background_trace background_window).
    - apply (frames_activate _ background_trace background_window).
    - apply (frames_windowClosed _ background_trace background_window).
    - apply (frames_updateDockVisibility _ background_trace).
    - apply (frames_companionBlurred _ background_window).
    - apply (frames_companionReshaped _ background_window). }
  unfold dispatch. specialize (Hframe w).
  destruct (handler e w); exact Hframe.
Qed.

Lemma window_events_keep_background_witness :
  background (dispatch (handler OnTrayClick)
                (final (whenReady (boot emptyStore "linux" fullHD true))))
  = background (final (whenReady (boot emptyStore "linux" fullHD true))).
Proof.
  exact (window_events_keep_background OnTrayClick
           (final (whenReady (boot emptyStore "linux" fullHD true))) eq_refl).
Defined.

(** ** The tray stays in step with the settings *)

Lemma tray_synced_view (w w' : World) :
  tray_view w' = tray_view w -> tray_synced w -> tray_synced w'.
Proof.
  unfold tray_view, tray_synced, traySettings. intros Hview.
  injection Hview as Htray Hset. now rewrite Htray, Hset.
Qed.

Lemma tray_synced_ok (w : World) : tray_synced w -> tray_ok w.
Proof.
  unfold tray_synced, tray_ok.
  destruct (strict_eq _ _); [intros ->; exact I|].
  intros [tip ->]. reflexivity.
Qed.

Lemma createTray_synced (w : World) :
  tray_ok w -> tray_synced (final (createTray w)).
Proof.
  intros Hok. rewrite (createTray_shape w Hok). cbn [final].
  unfold tray_synced, trayAfter.
  change (traySettings (logged (trayEffects w) (set_tray (trayAfter w) w)))
    with (traySettings w).
  change (tray (logged (trayEffects w) (set_tray (trayAfter w) w)))
    with (trayAfter w).
  unfold trayAfter. destruct (strict_eq _ _); [reflexivity|].
  eexists. reflexivity.
Qed.

Lemma frames_store_set_serverHost (h : string) :
  frames tray_view (store_set_serverHost h).
Proof. intros w. reflexivity. Qed.

Lemma frames_store_delete_serverHost : frames tray_view store_delete_serverHost.
Proof. intros w. reflexivity. Qed.

Lemma frames_submitContinuation (host : string) (response : Z) :
  frames tray_view (submitContinuation host response).
Proof.
  unfold submitContinuation. destruct (Z.eqb response 0).
  - apply frames_bind; [apply frames_store_set_serverHost|intros _].
    apply frames_bind; [|intros _].
    + apply (frames_createMainWindow _ tray_view_trace tray_view_window).
    + apply (frames_createCompanionWindow _ tray_view_trace tray_view_window).
  - apply frames_bind; [|intros _]; apply (frames_emit _ tray_view_trace).
Qed.

Lemma frames_resetServer : frames tray_view resetServer.
Proof.
  unfold resetServer.
  apply frames_bind; [apply (frames_emit _ tray_view_trace)|intros _].
  apply frames_bind; [apply frames_store_delete_serverHost|intros _].
  apply frames_bind; [apply frames_get|intros w1].
  apply frames_bind;
    [apply frames_when, (frames_close _ tray_view_window)|intros _].
  apply frames_bind; [apply frames_get|intros w2].
  apply frames_bind;
    [apply frames_when, (frames_close _ tray_view_window)|intros _].
  apply (frames_createLoginWindow _ tray_view_trace tray_view_window).
Qed.

Lemma frames_disconnectCallback (response : Z) :
  frames tray_view (disconnectCallback response).
Proof.
  unfold disconnectCallback. destruct (Z.eqb response 0); [|apply frames_ret].
  apply frames_bind; [apply (frames_emit _ tray_view_trace)|intros _].
  apply frames_bind; [apply frames_store_delete_serverHost|intros _].
  apply frames_bind; [apply frames_get|intros w1].
  apply frames_bind;
    [apply frames_when, (frames_close _ tray_view_window)|intros _].
  apply (frames_createLoginWindow _ tray_view_trace tray_view_window).
Qed.

Lemma frames_submitStarted (host : string) :
  frames tray_view (fun w => started_of (submitServerHost host w)).
Proof.
  intros w. unfold submitServerHost. cbn [emit modify].
  destruct (String.prefix "http://" host); [reflexivity|].
  cbn [started_of].
  apply (frames_submitContinuation host 0
           (set_trace (trace w ++ [ConsoleLog "Saving server host:"]) w)).
Qed.

Lemma updateSetting_synced (key value : string) (w : World) :
  tray_ok w -> tray_synced (final (updateSetting key value w)).
Proof.
  intros Hok. rewrite updateSetting_steps, final_bind.
  set (w1 := logged _ _).
  pose proof (createTray_synced w1 Hok) as Hsync.
  rewrite (createTray_shape w1 Hok) in *. cbn [final] in Hsync.
  set (w2 := logged _ (set_tray _ w1)) in *.
  refine (tray_synced_view w2 _ _ Hsync).
  match goal with |- tray_view (final (?m w2)) = _ =>
    assert (Hm : frames tray_view m); [|apply Hm] end.
  apply frames_bind; [apply frames_get|intros w'].
  destruct (_ && _); [|apply frames_ret].
  apply frames_bind; [|intros p].
  - apply (frames_getWindowPosition _ tray_view_window).
  - apply (frames_setPosition _ tray_view_trace tray_view_window).
Qed.

Lemma showTrayIcon_synced (w : World) :
  tray_ok w -> tray_synced (final (showTrayIcon w)).
Proof.
  intros Hok. unfold showTrayIcon, bind at 1, get. rewrite final_bind.
  change (store_set_settings
            (<["trayVisibility" := "always"]> (default ∅ (settings (store w)))) w)
    with (Ok tt (logged [StoreSet "settings"]
                   (withSettings
                      (<["trayVisibility" := "always"]>
                         (default ∅ (settings (store w)))) w))).
  cbv beta iota. apply createTray_synced. exact Hok.
Qed.

Lemma handler_synced (e : Event) (w : World) :
  tray_synced w -> tray_synced (final (handler e w)).
Proof.
  intros Hsync. pose proof (tray_synced_ok w Hsync) as Hok.
  destruct (settingsEvent e) eqn:Hset.
  - destruct e as [ | | |c| | | | | | | | | | | | ]; try discriminate Hset.
    + destruct c; try discriminate Hset. apply updateSetting_synced, Hok.
    + apply showTrayIcon_synced, Hok.
  - refine (tray_synced_view w _ _ Hsync).
    assert (Hframe : frames tray_view (handler e)); [|apply Hframe].
    destruct e as [ | | |c| |host|host response| | |response| |n|k| | |r];
      try discriminate Hset; cbn [handler].
    + apply (frames_hotkeyPressed _ tray_view_trace tray_view_window).
    + apply (frames_trayClick _ tray_view_trace tray_view_window).
    + apply (frames_trayRightClick _ tray_view_trace tray_view_window).
    + destruct c; try discriminate Hset.
      * apply (frames_openSolumaChat _ tray_view_trace tray_view_window).
      * apply (frames_toggleWindow _ tray_view_trace tray_view_window).
    + apply (frames_hideCompanion _ tray_view_trace tray_view_window).
    + apply frames_submitStarted.
    + apply frames_submitContinuation.
    + apply frames_resetServer.
    + intros w0. reflexivity.
    + apply frames_disconnectCallback.
    + apply (frames_activate _ tray_view_trace tray_view_window).
    + apply (frames_windowClosed _ tray_view_trace tray_view_window).
    + apply (frames_updateDockVisibility _ tray_view_trace).
    + apply (frames_companionBlurred _ tray_view_window).
    + apply (frames_companionReshaped _ tray_view_window).
Qed.

Lemma dispatch_synced (e : Event) (w : World) :
  tray_synced w -> tray_synced (dispatch (handler e) w).
Proof.
  intros Hsync. pose proof (handler_synced e w Hsync) as Hfinal.
  unfold dispatch. destruct (handler e w); cbn [final] in Hfinal; [exact Hfinal|].
  refine (tray_synced_view _ _ _ Hfinal). reflexivity.
Qed.

Lemma run_synced (events : list Event) (w : World) :
  tray_synced w -> tray_synced (run events w).
Proof.
  revert w. induction events as [|e events IH]; intros w Hsync; [exact Hsync|].
  cbn [run fold_left]. apply IH, dispatch_synced, Hsync.
Qed.

Lemma whenReady_synced (st : Store) (os : string) (area : Size) (free : bool) :
  tray_synced (dispatch whenReady (boot st os area free)).
Proof.
  unfold dispatch. rewrite (whenReady_result (boot st os area free) I).
  unfold started. set (w3 := initialized _).
  assert (Hok3 : tray_ok w3).
  { unfold tray_ok, w3, initialized, docked.
    destruct (truthy _); destruct (String.eqb _ _); exact I. }
  pose proof (createTray_synced w3 Hok3) as Hsync.
  rewrite (createTray_shape w3 Hok3) in Hsync. cbn [final] in Hsync.
  refine (tray_synced_view _ _ _ Hsync). reflexivity.
Qed.

(** X7. In every state the running process can reach - startup from any
    store on any platform, followed by any sequence of events - the tray is
    in step with the stored settings: there is no icon when
    [trayVisibility] is "never", and otherwise there is a live icon whose
    left click toggles the companion window and whose right click pops the
    menu built from the settings as they are stored at that moment. *)
Theorem tray_always_synced (st : Store) (os : string) (area : Size) (free : bool)
    (events : list Event) :
  tray_synced (run events (dispatch whenReady (boot st os area free))).
Proof. apply run_synced, whenReady_synced. Qed.

(** X8. In every reachable state a right click on the tray icon pops a menu
    in which a radio entry is checked exactly when it is the stored
    value. *)
Theorem reachable_menu_is_current (st : Store) (os : string) (area : Size)
    (free : bool) (events : list Event) :
  let w := run events (dispatch whenReady (boot st os area free)) in
  trayRightClick w
  = Ok tt (if strict_eq (traySettings w !! "trayVisibility") "never" then w
           else logged [PopUpContextMenu (trayTemplate (traySettings w))] w)
  /\ (forall r,
        In r (radioGroup "Companion Position" (trayTemplate (traySettings w))
              ++ radioGroup "Show in Menu Bar" (trayTemplate (traySettings w)))%list ->
        exists key value,
          radio_click r = ClickUpdateSetting key value
          /\ (radio_checked r = true <-> traySettings w !! key = Some value)).
Proof.
  intros w. split; [|apply trayTemplate_checked].
  pose proof (run_synced events _ (whenReady_synced st os area free)) as Hsync.
  fold w in Hsync. unfold tray_synced in Hsync.
  unfold trayRightClick, bind at 1, get.
  destruct (strict_eq _ _).
  - now rewrite Hsync.
  - destruct Hsync as [tip ->]. cbn [wiredTray tray_destroyed on_right_click
      runListeners runListener].
    destruct w; reflexivity.
Qed.

(** ** The computer id *)

Lemma getUniqueComputerId_stored (fresh c : string) (w : World) :
  computerId (store w) = Some c -> c <> "" ->
  getUniqueComputerId fresh w = Ok c w.
Proof.
  intros Hc Hne. unfold getUniqueComputerId, bind, get.
  rewrite Hc, (truthy_Some c Hne). reflexivity.
Qed.

(** X9. [getUniqueComputerId] yields a non-empty id and leaves it stored:
    a stored id is returned without a write, a missing or empty one is
    replaced by the fresh UUID, and every later call returns the same id
    and writes nothing, whatever UUID it is offered.  The host and the
    settings are not touched. *)
Theorem getUniqueComputerId_stable (fresh fresh' : string) (w : World) :
  fresh <> "" ->
  exists id w1,
    getUniqueComputerId fresh w = Ok id w1
    /\ id <> ""
    /\ computerId (store w1) = Some id
    /\ (truthy (computerId (store w)) = true ->
        w1 = w /\ computerId (store w) = Some id)
    /\ (truthy (computerId (store w)) = false -> id = fresh)
    /\ getUniqueComputerId fresh' w1 = Ok id w1
    /\ serverHost (store w1) = serverHost (store w)
    /\ settings (store w1) = settings (store w).
Proof.
  intros Hfresh.
  destruct (truthy (computerId (store w))) eqn:Htruthy.
  - destruct (computerId (store w)) as [c|] eqn:Hc; [|discriminate Htruthy].
    assert (Hne : c <> "").
    { cbn in Htruthy. now destruct (String.eqb_spec c ""). }
    exists c, w. rewrite !(getUniqueComputerId_stored _ c w Hc Hne).
    repeat split; auto. discriminate.
  - eexists fresh, _. split.
    { unfold getUniqueComputerId, bind at 1, get. rewrite Htruthy. reflexivity. }
    split; [exact Hfresh|]. split; [reflexivity|]. split; [discriminate|].
    split; [reflexivity|]. split; [|split; reflexivity].
    apply getUniqueComputerId_stored; [reflexivity|exact Hfresh].
Qed.

Lemma getUniqueComputerId_stable_witness :
  exists id w1,
    getUniqueComputerId "0b6f3c1e-5d2a-4c8e-9f41-7a3e2d1c0b9a"
      (boot emptyStore "linux" fullHD true) = Ok id w1
    /\ id <> ""
    /\ computerId (store w1) = Some id.
Proof.
  destruct (getUniqueComputerId_stable "0b6f3c1e-5d2a-4c8e-9f41-7a3e2d1c0b9a" ""
              (boot emptyStore "linux" fullHD true) ltac:(discriminate))
    as (id & w1 & Hrun & Hne & Hid & _).
  exists id, w1. repeat split; assumption.
Defined.

(** ** More on [updateSetting] *)

(** X10. The stored settings do not depend on the order in which two
    different settings are updated, and of two updates of the same setting
    the later one stands - also when one of the calls throws. *)
Theorem updateSetting_order (k1 v1 k2 v2 v1' : string) (w : World) :
  k1 <> k2 ->
  store (final (updateSetting k2 v2 (final (updateSetting k1 v1 w))))
  = store (final (updateSetting k1 v1 (final (updateSetting k2 v2 w))))
  /\ store (final (updateSetting k1 v1' (final (updateSetting k1 v1 w))))
     = store (final (updateSetting k1 v1' w)).
Proof.
  intros Hne. rewrite !updateSetting_store.
  cbn [settings serverHost computerId from_option id]. split.
  - f_equal. f_equal. apply insert_insert_ne. congruence.
  - f_equal. f_equal. apply insert_insert_eq.
Qed.

Lemma updateSetting_order_witness :
  store (final (updateSetting "trayVisibility" "running"
                  (final (updateSetting "position" "bottom-left"
                            (session "top-center" fullHD)))))
  = store (final (updateSetting "position" "bottom-left"
                    (final (updateSetting "trayVisibility" "running"
                              (session "top-center" fullHD))))).
Proof.
  exact (proj1 (updateSetting_order "position" "bottom-left" "trayVisibility"
                  "running" "center" (session "top-center" fullHD)
                  ltac:(discriminate))).
Defined.

(** X11. With a companion window that was destroyed behind the program's
    back, a position change is stored and the tray is rebuilt before the
    call throws: the exception does not undo the setting. *)
Theorem updateSetting_stale_companion (value : string) (w : World)
    (b : BrowserWindow) :
  tray_ok w -> companionWindow w = Some b -> destroyed b = true ->
  updateSetting "position" value w
  = Throw ObjectDestroyed
      (afterTray (<["position" := value]> (default ∅ (settings (store w)))) w)
  /\ settings (store (final (updateSetting "position" value w)))
     = Some (<["position" := value]> (default ∅ (settings (store w)))).
Proof.
  intros Htray Hb Hdead.
  set (s' := <["position" := value]> (default ∅ (settings (store w)))).
  assert (Hrun : updateSetting "position" value w
                 = Throw ObjectDestroyed (afterTray s' w)).
  { rewrite updateSetting_steps. fold s'.
    set (w1 := logged [StoreSet "settings"] (withSettings s' w)).
    assert (Hw2 : createTray w1 = Ok tt (afterTray s' w)).
    { rewrite (createTray_shape w1 Htray). f_equal.
      unfold afterTray, w1. destruct w; run_world; same_trace. }
    unfold bind at 1. rewrite Hw2. unfold bind at 1, get.
    change (nonNull Companion (afterTray s' w))
      with (match companionWindow w with Some _ => true | None => false end).
    rewrite Hb. cbn [String.eqb Ascii.eqb Bool.eqb andb].
    unfold bind, getWindowPosition, bind, getBounds, call, variable.
    change (companionWindow (afterTray s' w)) with (companionWindow w).
    now rewrite Hb, Hdead. }
  split; [exact Hrun|]. rewrite Hrun. reflexivity.
Qed.

Lemma updateSetting_stale_companion_witness :
  settings
    (store (final (updateSetting "position" "bottom-left"
                     (final (windowClosed Companion (session "top-center" fullHD))))))
  = Some (<["position" := "bottom-left"]> {[ "position" := "top-center" ]}).
Proof.
  exact (proj2 (updateSetting_stale_companion "bottom-left"
                  (final (windowClosed Companion (session "top-center" fullHD)))
                  (destroyedWindow (companion400x600 false false))
                  eq_refl eq_refl eq_refl)).
Defined.

(** ** Reset and disconnect *)

Lemma resetServer_result (w : World) :
  main_ok w -> companion_ok w ->
  resetServer w
  = Ok tt (loginOpened [ConsoleLog "Resetting server configuration"] (withoutHost w)).
Proof.
  unfold main_ok, companion_ok. intros Hmain Hcomp.
  unfold resetServer, createLoginWindow, close, store_delete_serverHost, nonNull,
    loginOpened, withoutHost.
  destruct w as [st mw cw lw tr os area free reg es]; cbn in Hmain, Hcomp.
  destruct mw as [[dm ? ? ? ?]|], cw as [[dc ? ? ? ?]|]; cbn in Hmain, Hcomp;
    subst; run_world; same_trace.
Qed.

(** X12. When the main and the companion variable are each [null] or live,
    "reset-server" returns: the host is no longer stored, so the next start
    goes to the login window; the settings and the computer id are kept, a
    login window is open, and the tray is as it was. *)
Theorem resetServer_returns (w : World) :
  main_ok w -> companion_ok w ->
  exists w',
    resetServer w = Ok tt w'
    /\ serverHost (store w') = None
    /\ settings (store w') = settings (store w)
    /\ computerId (store w') = computerId (store w)
    /\ loginWindow w' = Some (freshWindow 600 800 true "login.html")
    /\ tray w' = tray w
    /\ windowCreations
         (trace (final (initialize (boot (store w') (platform w) (workAreaSize w)
                                      (shortcutFree w)))))
       = [Login].
Proof.
  intros Hmain Hcomp. eexists.
  split; [apply (resetServer_result w Hmain Hcomp)|].
  repeat split.
Qed.

Lemma resetServer_returns_witness :
  exists w',
    resetServer (session "top-center" fullHD) = Ok tt w'
    /\ serverHost (store w') = None
    /\ settings (store w') = Some {[ "position" := "top-center" ]}.
Proof.
  destruct (resetServer_returns (session "top-center" fullHD) eq_refl eq_refl)
    as (w' & Hrun & Hhost & Hset & _).
  exists w'. repeat split; assumption.
Defined.

(** X13. With a companion window that was destroyed behind the program's
    back, "reset-server" throws at [companionWindow.close()]: the host is
    already deleted and the login window is not opened. *)
Theorem resetServer_stale_companion (w : World) (b : BrowserWindow) :
  main_ok w -> companionWindow w = Some b -> destroyed b = true ->
  resetServer w
  = Throw ObjectDestroyed
      (logged [ConsoleLog "Resetting server configuration"] (withoutHost w))
  /\ serverHost (store (final (resetServer w))) = None
  /\ loginWindow (final (resetServer w)) = loginWindow w.
Proof.
  unfold main_ok. intros Hmain Hb Hdead.
  assert (Hrun : resetServer w
                 = Throw ObjectDestroyed
                     (logged [ConsoleLog "Resetting server configuration"]
                        (withoutHost w))).
  { unfold resetServer, createLoginWindow, close, store_delete_serverHost, nonNull,
      withoutHost.
    destruct w as [st mw cw lw tr os area free reg es]; cbn in Hmain, Hb.
    subst cw. destruct b as [db ? ? ? ?]; cbn in Hdead; subst db.
    destruct mw as [[dm ? ? ? ?]|]; cbn in Hmain; subst; run_world; same_trace. }
  rewrite Hrun. repeat split.
Qed.

Lemma resetServer_stale_companion_witness :
  serverHost
    (store (final (resetServer
                     (final (windowClosed Companion (session "top-center" fullHD))))))
  = None
  /\ loginWindow
       (final (resetServer
                 (final (windowClosed Companion (session "top-center" fullHD)))))
     = None.
Proof.
  exact (proj2 (resetServer_stale_companion
                  (final (windowClosed Companion (session "top-center" fullHD)))
                  (destroyedWindow (companion400x600 false false))
                  eq_refl eq_refl eq_refl)).
Defined.

(** X14. "Disconnect from host" only shows its dialog when clicked.  When
    the answer is "Disconnect" it deletes the host and opens the login
    window; any other answer changes nothing.  It never touches the
    companion variable, so it returns even when that holds a destroyed
    window. *)
Theorem disconnect_spares_companion (response : Z) (w : World) :
  main_ok w ->
  disconnectClicked w
  = AwaitMessageBox (logged [ShowMessageBox "Disconnect Confirmation"] w)
      disconnectCallback
  /\ disconnectCallback response w
     = Ok tt (if Z.eqb response 0 then
                loginOpened [ConsoleLog "Resetting server configuration from menu"]
                  (withoutHost w)
              else w)
  /\ companionWindow (final (disconnectCallback response w)) = companionWindow w.
Proof.
  unfold main_ok. intros Hmain.
  assert (Hrun : disconnectCallback response w
                 = Ok tt (if Z.eqb response 0 then
                            loginOpened
                              [ConsoleLog "Resetting server configuration from menu"]
                              (withoutHost w)
                          else w)).
  { unfold disconnectCallback. destruct (Z.eqb response 0); [|reflexivity].
    unfold createLoginWindow, close, store_delete_serverHost, nonNull,
      loginOpened, withoutHost.
    destruct w as [st mw cw lw tr os area free reg es]; cbn in Hmain.
    destruct mw as [[dm ? ? ? ?]|]; cbn in Hmain; subst; run_world; same_trace. }
  split; [reflexivity|]. split; [exact Hrun|].
  rewrite Hrun. destruct (Z.eqb response 0); reflexivity.
Qed.

Lemma disconnect_spares_companion_witness :
  companionWindow
    (final (disconnectCallback 0
              (final (windowClosed Companion (session "top-center" fullHD)))))
  = Some (destroyedWindow (companion400x600 false false)).
Proof.
  exact (proj2 (proj2 (disconnect_spares_companion 0
                  (final (windowClosed Companion (session "top-center" fullHD)))
                  eq_refl))).
Defined.

(** ** From one run of the process to the next *)

Lemma windowCreations_app (es es' : list Effect) :
  windowCreations (es ++ es') = (windowCreations es ++ windowCreations es')%list.
Proof.
  induction es as [|e es IH]; [reflexivity|].
  destruct e; cbn [windowCreations app]; now rewrite IH.
Qed.

Lemma started_creations (st : Store) (os : string) (area : Size) (free : bool) :
  windowCreations (trace (started (boot st os area free)))
  = if truthy (serverHost st) then [Companion; Main] else [Login].
Proof.
  unfold started, registered, trayed, trayEffects, traySettings, tray_alive,
    initialized, docked, mainEffects, companionEffects.
  cbn [platform boot logged set_trace].
  destruct (String.eqb os "darwin") eqn:Hos;
    cbn [platform boot logged set_trace store];
    destruct (truthy (serverHost st));
    cbn [platform boot logged set_trace set_mainWindow set_companionWindow
         set_loginWindow set_tray set_hotkeyRegistered trace store tray
         shortcutFree mainWindow];
    rewrite ?Hos;
    destruct (strict_eq _ "never"); destruct free; reflexivity.
Qed.

(** X15. An accepted submission stores the host as typed, and the next start
    of the process opens the companion and the main window for it - unless
    the host is the empty string, which is stored as well but reads as "no
    host" at startup, so the login window comes up again. *)
Theorem accepted_host_at_next_start (host os : string) (area : Size) (free : bool)
    (w : World) :
  let st := store (final (submitAndAnswer host 0 w)) in
  serverHost st = Some host
  /\ windowCreations (trace (final (whenReady (boot st os area free))))
     = if String.eqb host "" then [Login] else [Companion; Main].
Proof.
  cbv zeta. rewrite submitAndAnswer_continue. cbn [final].
  set (st := store _).
  assert (Hhost : serverHost st = Some host) by reflexivity.
  split; [exact Hhost|].
  rewrite (whenReady_result (boot st os area free) I). cbn [final].
  rewrite started_creations, Hhost. cbn [truthy].
  now destruct (String.eqb host "").
Qed.

(** X16. A refused accelerator does not stop the startup: the callback
    returns, the windows, the tray and the store are those of a start with
    the accelerator granted, and the trace differs only in the outcome of
    the registration and the line "registration failed". *)
Theorem startup_survives_refused_hotkey (st : Store) (os : string) (area : Size) :
  let granted := final (whenReady (boot st os area true)) in
  let refused := final (whenReady (boot st os area false)) in
  returns (whenReady (boot st os area false)) = true
  /\ hotkeyRegistered refused = false
  /\ hotkeyRegistered granted = true
  /\ store refused = store granted
  /\ mainWindow refused = mainWindow granted
  /\ companionWindow refused = companionWindow granted
  /\ loginWindow refused = loginWindow granted
  /\ tray refused = tray granted
  /\ exists es,
       trace granted = (es ++ [RegisterShortcut "Option+Space" true])%list
       /\ trace refused
          = (es ++ [RegisterShortcut "Option+Space" false;
                    ConsoleLog "registration failed"])%list.
Proof.
  cbv zeta. rewrite !(whenReady_result (boot _ _ _ _) I). cbn [final returns].
  unfold started, registered, trayed, trayEffects, trayAfter, traySettings,
    tray_alive, initialized, docked.
  cbn [platform boot logged set_trace].
  destruct (String.eqb os "darwin") eqn:Hos;
    cbn [platform boot logged set_trace store];
    destruct (truthy (serverHost st));
    cbn [platform boot logged set_trace set_mainWindow set_companionWindow
         set_loginWindow set_tray set_hotkeyRegistered trace store tray
         shortcutFree mainWindow companionWindow loginWindow hotkeyRegistered];
    rewrite ?Hos;
    destruct (strict_eq _ "never");
    repeat (split; [reflexivity|]); eexists; split; reflexivity.
Qed.

(** ** Bringing the tray icon back *)

Lemma showTrayIcon_is_updateSetting (w : World) :
  showTrayIcon w = updateSetting "trayVisibility" "always" w.
Proof.
  rewrite updateSetting_steps.
  unfold showTrayIcon, bind at 1, get. unfold bind at 1.
  change (store_set_settings
            (<["trayVisibility" := "always"]> (default ∅ (settings (store w)))) w)
    with (Ok tt (logged [StoreSet "settings"]
                   (withSettings
                      (<["trayVisibility" := "always"]>
                         (default ∅ (settings (store w)))) w))).
  cbv beta iota. unfold bind at 1.
  destruct (createTray _) as [[] w2|e w2]; reflexivity.
Qed.

Lemma showTrayIcon_alive (w : World) :
  tray_ok w ->
  exists w',
    showTrayIcon w = Ok tt w'
    /\ tray_alive w' = true
    /\ settings (store w')
       = Some (<["trayVisibility" := "always"]> (default ∅ (settings (store w)))).
Proof.
  intros Hok. unfold showTrayIcon, bind at 1, get. unfold bind at 1.
  set (s' := <["trayVisibility" := "always"]> (default ∅ (settings (store w)))).
  change (store_set_settings s' w)
    with (Ok tt (logged [StoreSet "settings"] (withSettings s' w))).
  cbv beta iota. set (w1 := logged _ _).
  rewrite (createTray_shape w1 Hok). eexists. split; [reflexivity|].
  split; [|reflexivity].
  unfold tray_alive, trayAfter.
  cbn [tray logged set_trace set_tray].
  assert (Hvis : traySettings w1 !! "trayVisibility" = Some "always")
    by apply lookup_insert_eq.
  rewrite Hvis. reflexivity.
Qed.

(** X17. The View-menu entry "Show Tray Icon" does exactly what selecting
    "Always" in the tray menu does, and it always ends with a live tray
    icon - in particular after the tray was switched off with "Never",
    when the tray menu itself is no longer reachable. *)
Theorem showTrayIcon_restores_tray (w : World) :
  tray_ok w ->
  showTrayIcon w = updateSetting "trayVisibility" "always" w
  /\ (exists w',
        showTrayIcon w = Ok tt w'
        /\ tray_alive w' = true
        /\ settings (store w')
           = Some (<["trayVisibility" := "always"]>
                     (default ∅ (settings (store w)))))
  /\ tray (final (updateSetting "trayVisibility" "never" w)) = None
  /\ tray_alive
       (final (showTrayIcon (final (updateSetting "trayVisibility" "never" w))))
     = true.
Proof.
  intros Hok. split; [apply showTrayIcon_is_updateSetting|].
  split; [apply (showTrayIcon_alive w Hok)|].
  pose proof (updateSetting_synced "trayVisibility" "never" w Hok) as Hsync.
  split.
  - unfold tray_synced in Hsync.
    assert (Hnever : traySettings (final (updateSetting "trayVisibility" "never" w))
                     !! "trayVisibility" = Some "never").
    { unfold traySettings. rewrite updateSetting_store.
      cbn [settings from_option id]. apply lookup_insert_eq. }
    rewrite Hnever in Hsync. exact Hsync.
  - destruct (showTrayIcon_alive _ (tray_synced_ok _ Hsync)) as (w' & -> & Halive & _).
    exact Halive.
Qed.

Lemma showTrayIcon_restores_tray_witness :
  tray (final (updateSetting "trayVisibility" "never" (session "top-center" fullHD)))
  = None
  /\ tray_alive
       (final (showTrayIcon
                 (final (updateSetting "trayVisibility" "never"
                           (session "top-center" fullHD)))))
     = true.
Proof.
  exact (proj2 (proj2 (showTrayIcon_restores_tray (session "top-center" fullHD)
                         eq_refl))).
Defined.

(** ** The address the windows load *)

Lemma prefix_http (host : string) :
  String.prefix "http://" host = true -> String.prefix "http" host = true.
Proof.
  destruct host as [|a1 [|a2 [|a3 [|a4 rest]]]]; cbn [String.prefix];
    repeat (destruct (Ascii.ascii_dec _ _); [|discriminate]);
    try discriminate.
  intros _. destruct rest; reflexivity.
Qed.

Lemma hostUrl_http (host : string) : String.prefix "http" (hostUrl host) = true.
Proof.
  unfold hostUrl. destruct (String.prefix "http" host) eqn:Hp; [exact Hp|reflexivity].
Qed.

(** X18. After an accepted submission the main and the companion window
    load the same address, and it starts with "http".  The test is the
    literal, case-sensitive prefix "http" of the host: a host beginning with
    these four characters is loaded as typed - "http://..." and
    "https://..." hosts, and also a bare name such as "httpbin.org", which
    gets no scheme - and every other host gets "https://" in front, a host
    with another scheme ("ftp://...", "HTTP://...") included.  Resolving an
    address twice changes nothing. *)
Theorem accepted_host_address (host : string) (w : World) :
  (exists w' address,
     submitAndAnswer host 0 w = Ok tt w'
     /\ url <$> mainWindow w' = Some (Some address)
     /\ url <$> companionWindow w' = Some (Some address)
     /\ address = hostUrl host
     /\ String.prefix "http" address = true
     /\ hostUrl address = address
     /\ address = (if String.prefix "http" host then host
                   else String.append "https://" host)
     /\ (String.prefix "http://" host = true -> address = host))
  /\ hostUrl "httpbin.org" = "httpbin.org"
  /\ hostUrl "ftp://files.example.com" = "https://ftp://files.example.com"
  /\ hostUrl "HTTP://chat.example.com" = "https://HTTP://chat.example.com"
  /\ hostUrl "" = "https://".
Proof.
  split; [|repeat split].
  eexists _, (hostUrl host). split; [apply submitAndAnswer_continue|].
  repeat split.
  - apply hostUrl_http.
  - unfold hostUrl at 1. now rewrite hostUrl_http.
  - intros Hp. unfold hostUrl. now rewrite (prefix_http host Hp).
Qed.

(** ** Closing and reopening the main window *)

Lemma windowClosed_Main (w : World) (m : BrowserWindow) :
  mainWindow w = Some m ->
  windowClosed Main w = Ok tt (docked (set_mainWindow None w)).
Proof.
  intros Hm. unfold windowClosed, bind at 1, get. cbn [variable]. rewrite Hm.
  rewrite (bind_Ok _ _ w (set_mainWindow (Some (destroyedWindow m)) w) tt)
    by reflexivity.
  rewrite (bind_Ok _ _ _ (set_mainWindow None w) tt)
    by (destruct w; reflexivity).
  apply updateDockVisibility_result.
Qed.

(** X19. When the window system closes the main window, the 'closed'
    listener clears the variable (and hides the dock icon on macOS).  The
    tray entry "Open Soluma Chat" then opens a new main window on the stored
    host, and does nothing when no host is stored; the companion window is
    not involved. *)
Theorem main_window_reopens (w : World) (m : BrowserWindow) :
  mainWindow w = Some m ->
  let closed := final (windowClosed Main w) in
  mainWindow closed = None
  /\ trace closed
     = (trace w ++ if String.eqb (platform w) "darwin" then [DockHide] else [])%list
  /\ companionWindow closed = companionWindow w
  /\ runClick ClickOpenSolumaChat closed
     = Ok tt (if truthy (serverHost (store w)) then
                logged (mainEffects (platform w) (default "" (serverHost (store w))))
                  (set_mainWindow
                     (Some (freshWindow 800 800 true
                              (hostUrl (default "" (serverHost (store w))))))
                     closed)
              else closed).
Proof.
  intros Hm. cbv zeta. rewrite (windowClosed_Main w m Hm). cbn [final].
  assert (Hnone : mainWindow (docked (set_mainWindow None w)) = None).
  { unfold docked. cbn [platform set_mainWindow].
    destruct (String.eqb (platform w) "darwin"); reflexivity. }
  split; [exact Hnone|]. split; [|split].
  - unfold docked. cbn [platform set_mainWindow mainWindow].
    destruct (String.eqb (platform w) "darwin"); cbn [trace logged set_trace
      set_mainWindow]; [reflexivity|now rewrite app_nil_r].
  - unfold docked. cbn [platform set_mainWindow].
    destruct (String.eqb (platform w) "darwin"); reflexivity.
  - cbn [runClick]. unfold bind at 1, get, alive, variable. rewrite Hnone.
    cbn [negb].
    assert (Hstore : store (docked (set_mainWindow None w)) = store w).
    { unfold docked. cbn [platform set_mainWindow].
      destruct (String.eqb (platform w) "darwin"); reflexivity. }
    assert (Hos : platform (docked (set_mainWindow None w)) = platform w).
    { unfold docked. cbn [platform set_mainWindow].
      destruct (String.eqb (platform w) "darwin"); reflexivity. }
    rewrite Hstore. destruct (truthy (serverHost (store w))); cbn [when].
    + rewrite createMainWindow_result, Hos. reflexivity.
    + reflexivity.
Qed.

Lemma main_window_reopens_witness :
  mainWindow (final (windowClosed Main (session "top-center" fullHD))) = None
  /\ (mainWindow
        (final (runClick ClickOpenSolumaChat
                  (final (windowClosed Main (session "top-center" fullHD)))))
      = Some (freshWindow 800 800 true "https://chat.example.com")).
Proof.
  pose proof (main_window_reopens (session "top-center" fullHD)
                (freshWindow 800 800 true "https://chat.example.com") eq_refl)
    as (Hnone & _ & _ & Hopen).
  split; [exact Hnone|]. rewrite Hopen. reflexivity.
Defined.
